(** * Infinite Vision Studio: the generation pipeline and its orchestrator

    A shallow embedding of [geminiService.ts], [types.ts] and the
    control logic of [App.tsx].

    - JavaScript strings are held as [string] (the bytes of their UTF-8
      text); numbers that the code prints or compares are integers ([Z]).
    - An [async] function is a computation in the monad [M]: it threads
      the [World] (React state, trace of observable events) and completes
      with [Return v] or [Throw e] (a rejected promise).  [await] is the
      monad's bind.
    - The hosted model is an oracle [Service]: the outcome of the [k]-th
      request may depend on [k] and on the request, on nothing else.
    - [setX(...)] calls of React are reified as [Update]s; every update is
      applied to the state and appended to the trace. *)

From Stdlib Require Import String Ascii List ZArith NArith Bool Arith Lia.
Import ListNotations.
Local Open Scope list_scope.
Local Open Scope string_scope.

(** ** JavaScript completions *)

(** An [Error] object: its [name] ("Error", "TypeError", "SyntaxError")
    and its [message]. *)
Record JsError := mkError { errorName : string; message : string }.

Definition Error (msg : string) : JsError := mkError "Error" msg.
Definition TypeError (msg : string) : JsError := mkError "TypeError" msg.
Definition SyntaxError (msg : string) : JsError := mkError "SyntaxError" msg.

(** How a call ends.  [Unmodelled] marks a run that has left the typed
    embedding: a value that does not have the TypeScript type the code
    casts it to (the cast is unchecked at run time). *)
Inductive Completion (A : Type) : Type :=
| Return (a : A)
| Throw (e : JsError)
| Unmodelled.
Arguments Return {A} a.
Arguments Throw {A} e.
Arguments Unmodelled {A}.

(** [!s] is false exactly for the non-empty string. *)
Definition truthy (s : string) : bool :=
  match s with EmptyString => false | String _ _ => true end.

(** [a || b] on strings, [a] possibly [undefined]. *)
Definition or_default (a : option string) (b : string) : string :=
  match a with
  | Some s => if truthy s then s else b
  | None => b
  end.

(** ** Text helpers *)

Definition LF : string := String "010"%char EmptyString.
Definition DQUOTE : string := String "034"%char EmptyString.

(** [Array.prototype.join] on strings. *)
Fixpoint join (sep : string) (l : list string) : string :=
  match l with
  | [] => EmptyString
  | [x] => x
  | x :: rest => x ++ sep ++ join sep rest
  end.

Definition digit_char (d : nat) : ascii := ascii_of_nat (48 + d).

(** Decimal digits of a natural number; [fuel] bounds the digit count. *)
Fixpoint nat_digits (fuel n : nat) (acc : string) : string :=
  match fuel with
  | O => acc
  | S fuel' =>
      let acc' := String (digit_char (n mod 10)) acc in
      match n / 10 with
      | O => acc'
      | q => nat_digits fuel' q acc'
      end
  end.

(** [String(n)] for a non-negative integer. *)
Definition nat_to_string (n : nat) : string := nat_digits (S n) n EmptyString.

(** [String(z)] for an integer. *)
Definition Z_to_string (z : Z) : string :=
  match z with
  | Z0 => "0"
  | Zpos p => nat_to_string (Pos.to_nat p)
  | Zneg p => "-" ++ nat_to_string (Pos.to_nat p)
  end.

(** White space of [String.prototype.trim] (WhiteSpace and LineTerminator
    of ECMAScript), by the bytes of its UTF-8 text: one byte for TAB, LF,
    VT, FF, CR and SPACE; two for U+00A0; three for U+1680, U+2000 to
    U+200A, U+2028, U+2029, U+202F, U+205F, U+3000 and U+FEFF. *)
Definition white1 (a : nat) : bool :=
  (((9 <=? a) && (a <=? 13)) || (a =? 32))%nat.

Definition white2 (a b : nat) : bool := ((a =? 194) && (b =? 160))%nat.

Definition white3 (a b c : nat) : bool :=
  (((a =? 225) && (b =? 154) && (c =? 128))
   || ((a =? 226) && (b =? 128)
       && (((128 <=? c) && (c <=? 138)) || (c =? 168) || (c =? 169) || (c =? 175)))
   || ((a =? 226) && (b =? 129) && (c =? 159))
   || ((a =? 227) && (b =? 128) && (c =? 128))
   || ((a =? 239) && (b =? 187) && (c =? 191)))%nat.

Fixpoint trimStart (s : string) : string :=
  match s with
  | EmptyString => EmptyString
  | String a r1 =>
      if white1 (nat_of_ascii a) then trimStart r1
      else
        match r1 with
        | EmptyString => s
        | String b r2 =>
            if white2 (nat_of_ascii a) (nat_of_ascii b) then trimStart r2
            else
              match r2 with
              | EmptyString => s
              | String c r3 =>
                  if white3 (nat_of_ascii a) (nat_of_ascii b) (nat_of_ascii c)
                  then trimStart r3
                  else s
              end
        end
  end.

Fixpoint string_rev_append (s acc : string) : string :=
  match s with
  | EmptyString => acc
  | String c rest => string_rev_append rest (String c acc)
  end.

Definition string_rev (s : string) : string := string_rev_append s EmptyString.

(** [trimStart] on the reversed text: the bytes of a code point come last
    byte first. *)
Fixpoint trimStart_reversed (s : string) : string :=
  match s with
  | EmptyString => EmptyString
  | String c r1 =>
      if white1 (nat_of_ascii c) then trimStart_reversed r1
      else
        match r1 with
        | EmptyString => s
        | String b r2 =>
            if white2 (nat_of_ascii b) (nat_of_ascii c) then trimStart_reversed r2
            else
              match r2 with
              | EmptyString => s
              | String a r3 =>
                  if white3 (nat_of_ascii a) (nat_of_ascii b) (nat_of_ascii c)
                  then trimStart_reversed r3
                  else s
              end
        end
  end.

Definition trimEnd (s : string) : string :=
  string_rev (trimStart_reversed (string_rev s)).

(** [s.trim()] *)
Definition trim (s : string) : string := trimEnd (trimStart s).

(** The text is white space from its first byte to its last. *)
Fixpoint only_white_space (s : string) : bool :=
  match s with
  | EmptyString => true
  | String a r1 =>
      if white1 (nat_of_ascii a) then only_white_space r1
      else
        match r1 with
        | EmptyString => false
        | String b r2 =>
            if white2 (nat_of_ascii a) (nat_of_ascii b) then only_white_space r2
            else
              match r2 with
              | EmptyString => false
              | String c r3 =>
                  if white3 (nat_of_ascii a) (nat_of_ascii b) (nat_of_ascii c)
                  then only_white_space r3
                  else false
              end
        end
  end.

(** [s] occurs in [t] as a contiguous piece. *)
Definition occurs_in (s t : string) : Prop :=
  exists before after, t = before ++ s ++ after.

(** ** JSON values and [JSON.parse] *)

(** A number keeps the text of its literal; [as_integer] below reads the
    literals that denote integers. *)
#[local] Set Warnings "-register-all".
Inductive Json : Type :=
| JNull
| JBool (b : bool)
| JNumber (literal : string)
| JString (s : string)
| JArray (items : list Json)
| JObject (members : list (string * Json)).

Inductive Parsed (A : Type) : Type :=
| Parsed_ok (a : A) (rest : list ascii)
| Parsed_syntax_error
| Parsed_out_of_fuel.
Arguments Parsed_ok {A} a rest.
Arguments Parsed_syntax_error {A}.
Arguments Parsed_out_of_fuel {A}.

Definition is_json_ws (c : ascii) : bool :=
  let n := nat_of_ascii c in
  ((n =? 32) || (n =? 9) || (n =? 10) || (n =? 13))%nat.

Fixpoint skip_ws (s : list ascii) : list ascii :=
  match s with
  | [] => []
  | c :: rest => if is_json_ws c then skip_ws rest else s
  end.

Definition is_digit (c : ascii) : bool :=
  let n := nat_of_ascii c in ((48 <=? n) && (n <=? 57))%nat.

Fixpoint span_digits (s : list ascii) : list ascii * list ascii :=
  match s with
  | [] => ([], [])
  | c :: rest =>
      if is_digit c
      then let (ds, r) := span_digits rest in (c :: ds, r)
      else ([], s)
  end.

(** One or more digits. *)
Definition digits1 (s : list ascii) : option (list ascii * list ascii) :=
  match span_digits s with
  | ([], _) => None
  | (ds, r) => Some (ds, r)
  end.

(** The integer part: [0], or a non-zero digit followed by digits. *)
Definition number_int (s : list ascii) : option (list ascii * list ascii) :=
  match s with
  | [] => None
  | c :: rest =>
      if (c =? "0")%char then Some ([c], rest)
      else if is_digit c then let (ds, r) := span_digits rest in Some (c :: ds, r)
      else None
  end.

Definition number_frac (s : list ascii) : option (list ascii * list ascii) :=
  match s with
  | c :: rest =>
      if (c =? ".")%char then
        match digits1 rest with
        | Some (ds, r) => Some (c :: ds, r)
        | None => None
        end
      else Some ([], s)
  | [] => Some ([], s)
  end.

Definition number_exp (s : list ascii) : option (list ascii * list ascii) :=
  match s with
  | c :: rest =>
      if (c =? "e")%char || (c =? "E")%char then
        let (sign, rest') :=
          match rest with
          | d :: r => if (d =? "+")%char || (d =? "-")%char then ([d], r) else ([], rest)
          | [] => ([], rest)
          end in
        match digits1 rest' with
        | Some (ds, r) => Some ((c :: sign ++ ds)%list, r)
        | None => None
        end
      else Some ([], s)
  | [] => Some ([], s)
  end.

(** A JSON number literal: [-? int frac? exp?]. *)
Definition parse_number (s : list ascii) : option (list ascii * list ascii) :=
  let (sign, s1) :=
    match s with
    | c :: rest => if (c =? "-")%char then ([c], rest) else ([], s)
    | [] => ([], s)
    end in
  match number_int s1 with
  | None => None
  | Some (i, s2) =>
      match number_frac s2 with
      | None => None
      | Some (f, s3) =>
          match number_exp s3 with
          | None => None
          | Some (e, s4) => Some ((sign ++ i ++ f ++ e)%list, s4)
          end
      end
  end.

Definition hex_digit (c : ascii) : option N :=
  let n := N_of_ascii c in
  if ((48 <=? n) && (n <=? 57))%N then Some (n - 48)%N
  else if ((65 <=? n) && (n <=? 70))%N then Some (n - 55)%N
  else if ((97 <=? n) && (n <=? 102))%N then Some (n - 87)%N
  else None.

Definition hex4 (a b c d : ascii) : option N :=
  match hex_digit a, hex_digit b, hex_digit c, hex_digit d with
  | Some x, Some y, Some z, Some w => Some (((x * 16 + y) * 16 + z) * 16 + w)%N
  | _, _, _, _ => None
  end.

(** UTF-8 bytes of a code point. *)
Definition utf8_encode (cp : N) : list ascii :=
  (if cp <? 128 then [ascii_of_N cp]
   else if cp <? 2048 then
     [ascii_of_N (192 + cp / 64); ascii_of_N (128 + cp mod 64)]
   else if cp <? 65536 then
     [ascii_of_N (224 + cp / 4096); ascii_of_N (128 + (cp / 64) mod 64);
      ascii_of_N (128 + cp mod 64)]
   else
     [ascii_of_N (240 + cp / 262144); ascii_of_N (128 + (cp / 4096) mod 64);
      ascii_of_N (128 + (cp / 64) mod 64); ascii_of_N (128 + cp mod 64)])%N.

Definition is_high_surrogate (u : N) : bool := ((55296 <=? u) && (u <=? 56319))%N.
Definition is_low_surrogate (u : N) : bool := ((56320 <=? u) && (u <=? 57343))%N.

(** Output so far (reversed) with a lead surrogate possibly waiting for
    its trail. *)
Definition flush (pending : option N) (acc : list ascii) : list ascii :=
  match pending with
  | Some hi => rev_append (utf8_encode hi) acc
  | None => acc
  end.

Definition simple_escape (c : ascii) : option ascii :=
  if (c =? "034")%char then Some "034"%char
  else if (c =? "\")%char then Some "\"%char
  else if (c =? "/")%char then Some "/"%char
  else if (c =? "b")%char then Some "008"%char
  else if (c =? "f")%char then Some "012"%char
  else if (c =? "n")%char then Some "010"%char
  else if (c =? "r")%char then Some "013"%char
  else if (c =? "t")%char then Some "009"%char
  else None.

(** The characters of a string literal after its opening quote, up to and
    including the closing quote. *)
Fixpoint parse_string_chars (s : list ascii) (pending : option N) (acc : list ascii)
  : Parsed string :=
  match s with
  | [] => Parsed_syntax_error
  | c :: rest =>
      if (c =? "034")%char then
        Parsed_ok (string_of_list_ascii (rev (flush pending acc))) rest
      else if (c =? "\")%char then
        match rest with
        | [] => Parsed_syntax_error
        | e :: rest1 =>
            if (e =? "u")%char then
              match rest1 with
              | h1 :: h2 :: h3 :: h4 :: rest2 =>
                  match hex4 h1 h2 h3 h4 with
                  | None => Parsed_syntax_error
                  | Some u =>
                      match pending with
                      | Some hi =>
                          if is_low_surrogate u then
                            parse_string_chars rest2 None
                              (rev_append
                                 (utf8_encode (65536 + (hi - 55296) * 1024 + (u - 56320))%N)
                                 acc)
                          else if is_high_surrogate u then
                            parse_string_chars rest2 (Some u) (flush pending acc)
                          else
                            parse_string_chars rest2 None
                              (rev_append (utf8_encode u) (flush pending acc))
                      | None =>
                          if is_high_surrogate u then
                            parse_string_chars rest2 (Some u) acc
                          else
                            parse_string_chars rest2 None (rev_append (utf8_encode u) acc)
                      end
                  end
              | _ => Parsed_syntax_error
              end
            else
              match simple_escape e with
              | Some x => parse_string_chars rest1 None (x :: flush pending acc)
              | None => Parsed_syntax_error
              end
        end
      else if (nat_of_ascii c <? 32)%nat then Parsed_syntax_error
      else parse_string_chars rest None (c :: flush pending acc)
  end.

Definition starts_with (lit s : list ascii) : option (list ascii) :=
  if list_eq_dec ascii_dec (firstn (length lit) s) lit
  then Some (skipn (length lit) s) else None.

(** Recursive descent over the value grammar.  Each call spends one unit
    of [fuel]; [JSON_parse] below supplies enough of it. *)
Fixpoint parse_value (fuel : nat) (s : list ascii) : Parsed Json :=
  match fuel with
  | O => Parsed_out_of_fuel
  | S fuel' =>
      match skip_ws s with
      | [] => Parsed_syntax_error
      | c :: rest =>
          if (c =? "{")%char then
            match skip_ws rest with
            | [] => Parsed_syntax_error
            | c' :: rest' =>
                if (c' =? "}")%char then Parsed_ok (JObject []) rest'
                else parse_members fuel' (c' :: rest') []
            end
          else if (c =? "[")%char then
            match skip_ws rest with
            | [] => Parsed_syntax_error
            | c' :: rest' =>
                if (c' =? "]")%char then Parsed_ok (JArray []) rest'
                else parse_elements fuel' (c' :: rest') []
            end
          else if (c =? "034")%char then
            match parse_string_chars rest None [] with
            | Parsed_ok str r => Parsed_ok (JString str) r
            | Parsed_syntax_error => Parsed_syntax_error
            | Parsed_out_of_fuel => Parsed_out_of_fuel
            end
          else
            match starts_with (list_ascii_of_string "true") (c :: rest) with
            | Some r => Parsed_ok (JBool true) r
            | None =>
            match starts_with (list_ascii_of_string "false") (c :: rest) with
            | Some r => Parsed_ok (JBool false) r
            | None =>
            match starts_with (list_ascii_of_string "null") (c :: rest) with
            | Some r => Parsed_ok JNull r
            | None =>
            match parse_number (c :: rest) with
            | Some (lit, r) => Parsed_ok (JNumber (string_of_list_ascii lit)) r
            | None => Parsed_syntax_error
            end end end end
      end
  end

with parse_elements (fuel : nat) (s : list ascii) (acc : list Json) : Parsed Json :=
  match fuel with
  | O => Parsed_out_of_fuel
  | S fuel' =>
      match parse_value fuel' s with
      | Parsed_ok v r =>
          match skip_ws r with
          | [] => Parsed_syntax_error
          | c :: rest =>
              if (c =? ",")%char then parse_elements fuel' rest (v :: acc)
              else if (c =? "]")%char then Parsed_ok (JArray (rev (v :: acc))) rest
              else Parsed_syntax_error
          end
      | Parsed_syntax_error => Parsed_syntax_error
      | Parsed_out_of_fuel => Parsed_out_of_fuel
      end
  end

with parse_members (fuel : nat) (s : list ascii) (acc : list (string * Json))
  : Parsed Json :=
  match fuel with
  | O => Parsed_out_of_fuel
  | S fuel' =>
      match skip_ws s with
      | [] => Parsed_syntax_error
      | q :: rest =>
          if (q =? "034")%char then
            match parse_string_chars rest None [] with
            | Parsed_ok key r1 =>
                match skip_ws r1 with
                | [] => Parsed_syntax_error
                | colon :: r2 =>
                    if (colon =? ":")%char then
                      match parse_value fuel' r2 with
                      | Parsed_ok v r3 =>
                          match skip_ws r3 with
                          | [] => Parsed_syntax_error
                          | c :: r4 =>
                              if (c =? ",")%char then
                                parse_members fuel' r4 ((key, v) :: acc)
                              else if (c =? "}")%char then
                                Parsed_ok (JObject (rev ((key, v) :: acc))) r4
                              else Parsed_syntax_error
                          end
                      | Parsed_syntax_error => Parsed_syntax_error
                      | Parsed_out_of_fuel => Parsed_out_of_fuel
                      end
                    else Parsed_syntax_error
                end
            | Parsed_syntax_error => Parsed_syntax_error
            | Parsed_out_of_fuel => Parsed_out_of_fuel
            end
          else Parsed_syntax_error
      end
  end.

(** The engine's message for a text that is not JSON (its wording differs
    between engines; it is never empty). *)
Definition JSON_syntax_error : JsError :=
  SyntaxError "Unexpected token in JSON".

(** [JSON.parse(text)]: one value, white space around it, nothing else. *)
Definition JSON_parse (text : string) : Completion Json :=
  let s := list_ascii_of_string text in
  match parse_value (2 * length s + 1) s with
  | Parsed_ok v r =>
      match skip_ws r with
      | [] => Return v
      | _ :: _ => Throw JSON_syntax_error
      end
  | Parsed_syntax_error => Throw JSON_syntax_error
  | Parsed_out_of_fuel => Unmodelled
  end.

(** [o.key] on a parsed object: the last member of that name, [None] for
    [undefined]. *)
Fixpoint get_member (key : string) (members : list (string * Json)) : option Json :=
  match members with
  | [] => None
  | (k, v) :: rest =>
      match get_member key rest with
      | Some v' => Some v'
      | None => if String.eqb k key then Some v else None
      end
  end.

(** ** types.ts *)

(** Fields marked [?] in the interfaces, and fields that the response
    schema does not ask for, may be [undefined]: they are [option]s. *)

Module Character.
Record t := mk { id : string; name : string; appearance : string }.
End Character.

Module Scene.
Record t := mk {
  id : string;
  sceneNumber : Z;
  location : string;
  timeOfDay : option string;
  action : string;
  dialogue : option string;
  visualPrompt : string;
  imageUrl : option string;
  isGenerating : option bool
}.

(** [{ ...s, action: a }] *)
Definition with_action (a : string) (s : t) : t :=
  mk (id s) (sceneNumber s) (location s) (timeOfDay s) a (dialogue s)
     (visualPrompt s) (imageUrl s) (isGenerating s).
End Scene.

Module Page.
Record t := mk {
  id : string;
  pageNumber : Z;
  scenes : list Scene.t;
  imageUrl : option string;
  isGenerating : option bool;
  pageLayoutDescription : string
}.

(** [{ ...p, isGenerating: b }] *)
Definition with_isGenerating (b : bool) (p : t) : t :=
  mk (id p) (pageNumber p) (scenes p) (imageUrl p) (Some b) (pageLayoutDescription p).

(** [{ ...p, imageUrl, isGenerating: false }] *)
Definition with_image (url : string) (p : t) : t :=
  mk (id p) (pageNumber p) (scenes p) (Some url) (Some false) (pageLayoutDescription p).

(** [{ ...p, scenes: ss }] *)
Definition with_scenes (ss : list Scene.t) (p : t) : t :=
  mk (id p) (pageNumber p) ss (imageUrl p) (isGenerating p) (pageLayoutDescription p).
End Page.

Module StoryboardData.
Record t := mk {
  title : string;
  characters : list Character.t;
  pages : list Page.t
}.

(** [{ ...prev, pages: ps }] *)
Definition with_pages (ps : list Page.t) (d : t) : t :=
  mk (title d) (characters d) ps.
End StoryboardData.

(** *** A parsed value read at an interface type

    [JSON.parse] returns [any]; the service functions hand it out at the
    declared type without a check.  [as_StoryboardData] is that reading:
    it is [None] when a field the code relies on is missing or of another
    kind, and the run is then [Unmodelled]. *)

Definition as_string (j : Json) : option string :=
  match j with JString s => Some s | _ => None end.

Definition as_bool (j : Json) : option bool :=
  match j with JBool b => Some b | _ => None end.

Fixpoint digits_value (ds : list ascii) (acc : N) : option N :=
  match ds with
  | [] => Some acc
  | c :: rest =>
      if is_digit c then digits_value rest (acc * 10 + (N_of_ascii c - 48))%N
      else None
  end.

(** 2^53 - 1, the largest integer below which every integer is a number. *)
Definition MAX_SAFE_INTEGER : N := 9007199254740991%N.

(** The integer a literal denotes, for literals without fraction or
    exponent within the safe range. *)
Definition as_integer (j : Json) : option Z :=
  match j with
  | JNumber lit =>
      match list_ascii_of_string lit with
      | [] => None
      | c :: rest =>
          if (c =? "-")%char then
            match rest, digits_value rest 0 with
            | _ :: _, Some n => if (n <=? MAX_SAFE_INTEGER)%N then Some (- Z.of_N n)%Z else None
            | _, _ => None
            end
          else
            match digits_value (c :: rest) 0 with
            | Some n => if (n <=? MAX_SAFE_INTEGER)%N then Some (Z.of_N n) else None
            | None => None
            end
      end
  | _ => None
  end.

(** A required field. *)
Definition field {A} (read : Json -> option A) (key : string)
    (o : list (string * Json)) : option A :=
  match get_member key o with
  | Some j => read j
  | None => None
  end.

(** A field that may be absent; [Some None] is [undefined]. *)
Definition optional_field {A} (read : Json -> option A) (key : string)
    (o : list (string * Json)) : option (option A) :=
  match get_member key o with
  | Some j => match read j with Some a => Some (Some a) | None => None end
  | None => Some None
  end.

Fixpoint read_all {A} (read : Json -> option A) (l : list Json) : option (list A) :=
  match l with
  | [] => Some []
  | j :: rest =>
      match read j, read_all read rest with
      | Some a, Some l' => Some (a :: l')
      | _, _ => None
      end
  end.

Definition as_array {A} (read : Json -> option A) (j : Json) : option (list A) :=
  match j with JArray items => read_all read items | _ => None end.

Definition as_Character (j : Json) : option Character.t :=
  match j with
  | JObject o =>
      match field as_string "id" o, field as_string "name" o,
            field as_string "appearance" o with
      | Some i, Some n, Some a => Some (Character.mk i n a)
      | _, _, _ => None
      end
  | _ => None
  end.

Definition as_Scene (j : Json) : option Scene.t :=
  match j with
  | JObject o =>
      match field as_string "id" o, field as_integer "sceneNumber" o,
            field as_string "location" o, optional_field as_string "timeOfDay" o,
            field as_string "action" o, optional_field as_string "dialogue" o,
            field as_string "visualPrompt" o, optional_field as_string "imageUrl" o,
            optional_field as_bool "isGenerating" o with
      | Some i, Some n, Some l, Some t, Some a, Some d, Some v, Some u, Some g =>
          Some (Scene.mk i n l t a d v u g)
      | _, _, _, _, _, _, _, _, _ => None
      end
  | _ => None
  end.

Definition as_Page (j : Json) : option Page.t :=
  match j with
  | JObject o =>
      match field as_string "id" o, field as_integer "pageNumber" o,
            field (as_array as_Scene) "scenes" o,
            optional_field as_string "imageUrl" o,
            optional_field as_bool "isGenerating" o,
            field as_string "pageLayoutDescription" o with
      | Some i, Some n, Some ss, Some u, Some g, Some l => Some (Page.mk i n ss u g l)
      | _, _, _, _, _, _ => None
      end
  | _ => None
  end.

Definition as_StoryboardData (j : Json) : option StoryboardData.t :=
  match j with
  | JObject o =>
      match field as_string "title" o, field (as_array as_Character) "characters" o,
            field (as_array as_Page) "pages" o with
      | Some t, Some cs, Some ps => Some (StoryboardData.mk t cs ps)
      | _, _, _ => None
      end
  | _ => None
  end.

(** [String(v)] as a template literal does it, for a member read off a
    parsed object ([None] is [undefined]).  A number prints as its literal,
    which is its JavaScript text for the integers [as_integer] reads. *)
Fixpoint template_text (v : Json) : string :=
  match v with
  | JNull => "null"
  | JBool true => "true"
  | JBool false => "false"
  | JNumber lit => lit
  | JString s => s
  | JArray items =>
      join "," (map (fun x => match x with JNull => "" | _ => template_text x end) items)
  | JObject _ => "[object Object]"
  end.

Definition template_member (key : string) (v : Json) : string :=
  match v with
  | JObject o =>
      match get_member key o with
      | Some x => template_text x
      | None => "undefined"
      end
  | _ => "undefined"
  end.

(** ** The hosted model, as the code sees it *)

Module GenAI.

(** A response schema ([Type.OBJECT], [Type.ARRAY], ...). *)
Inductive Schema : Type :=
| STRING (description : option string)
| INTEGER
| ARRAY (items : Schema)
| OBJECT (properties : list (string * Schema)) (required : list string).

Inductive Config : Type :=
| JsonConfig (responseMimeType : string) (responseSchema : Schema)
| ImageConfig (aspectRatio : string).

Inductive Contents : Type :=
| Text (s : string)
| Parts (texts : list string).

Record Request := mkRequest { model : string; contents : Contents; config : Config }.

Record Blob := mkBlob { mimeType : string; data : string }.
Record Part := mkPart { partText : option string; inlineData : option Blob }.
Record Content := mkContent { parts : list Part }.
Record Candidate := mkCandidate { content : Content }.

(** [text] is [None] when the property is [undefined]. *)
Record Response := mkResponse { text : option string; candidates : list Candidate }.

(** How the promise of [ai.models.generateContent] settles. *)
Inductive Outcome : Type :=
| Rejected (e : JsError)
| Responded (r : Response).

(** The service: the outcome of the [k]-th request, given the request. *)
Definition Service : Type := nat -> Request -> Outcome.

End GenAI.

(** ** Application state (the [useState] cells of [App]) *)

Module AppStep.
Inductive t : Type := input | development | storyboard.
End AppStep.

Module Mode.
Inductive t : Type := quick | creative.
End Mode.

Record AppState := mkAppState {
  step : AppStep.t;
  mode : Mode.t;
  input : string;
  loading : bool;
  developedStory : option Json;
  data : option StoryboardData.t;
  error : option string;
  numPages : Z;
  numPanelsPerPage : Z;
  zoomedPage : option string;
  editingSceneId : option string;
  editBuffer : string
}.

(** [useState] initial values. *)
Definition initial_state : AppState :=
  mkAppState AppStep.input Mode.creative "" false None None None 5 10 None None "".

Definition totalPanels (st : AppState) : Z := (numPages st * numPanelsPerPage st)%Z.

(** The message the view shows: [{error && <div>...{error}</div>}] stands
    inside the section of the input step. *)
Definition shown_error (st : AppState) : option string :=
  match step st with
  | AppStep.input =>
      match error st with
      | Some msg => if truthy msg then Some msg else None
      | None => None
      end
  | _ => None
  end.

(** The functions handed to [setData]. *)
Inductive DataUpdate : Type :=
| Replace (d : option StoryboardData.t)
| MarkGenerating (pageId : string)
| AttachImage (pageId imageUrl : string)
| ClearGenerating (pageId : string)
| EditAction (sceneId text : string).

(** [pages.map(p => p.id === pageId ? f(p) : p)] *)
Definition map_page (pageId : string) (f : Page.t -> Page.t) (ps : list Page.t)
  : list Page.t :=
  map (fun p => if String.eqb (Page.id p) pageId then f p else p) ps.

(** [scenes.map(s => s.id === sceneId ? { ...s, action: text } : s)] *)
Definition edit_scenes (sceneId text : string) (ss : list Scene.t) : list Scene.t :=
  map (fun s => if String.eqb (Scene.id s) sceneId then Scene.with_action text s else s) ss.

Definition apply_data (u : DataUpdate) (prev : option StoryboardData.t)
  : option StoryboardData.t :=
  match u with
  | Replace d => d
  | MarkGenerating pageId =>
      match prev with
      | Some prev =>
          Some (StoryboardData.with_pages
                  (map_page pageId (Page.with_isGenerating true) (StoryboardData.pages prev))
                  prev)
      | None => None
      end
  | AttachImage pageId imageUrl =>
      match prev with
      | Some prev =>
          Some (StoryboardData.with_pages
                  (map_page pageId (Page.with_image imageUrl) (StoryboardData.pages prev))
                  prev)
      | None => None
      end
  | ClearGenerating pageId =>
      match prev with
      | Some prev =>
          Some (StoryboardData.with_pages
                  (map_page pageId (Page.with_isGenerating false) (StoryboardData.pages prev))
                  prev)
      | None => None
      end
  | EditAction sceneId text =>
      match prev with
      | None => None
      | Some prev =>
          Some (StoryboardData.with_pages
                  (map (fun p => Page.with_scenes (edit_scenes sceneId text (Page.scenes p)) p)
                       (StoryboardData.pages prev))
                  prev)
      end
  end.

(** The state setters. *)
Inductive Update : Type :=
| SetStep (s : AppStep.t)
| SetLoading (b : bool)
| SetDevelopedStory (j : option Json)
| SetData (u : DataUpdate)
| SetError (e : option string)
| SetEditingSceneId (i : option string)
| SetEditBuffer (s : string).

Definition apply_update (u : Update) (st : AppState) : AppState :=
  match u with
  | SetStep s =>
      mkAppState s (mode st) (input st) (loading st) (developedStory st) (data st)
        (error st) (numPages st) (numPanelsPerPage st) (zoomedPage st)
        (editingSceneId st) (editBuffer st)
  | SetLoading b =>
      mkAppState (step st) (mode st) (input st) b (developedStory st) (data st)
        (error st) (numPages st) (numPanelsPerPage st) (zoomedPage st)
        (editingSceneId st) (editBuffer st)
  | SetDevelopedStory j =>
      mkAppState (step st) (mode st) (input st) (loading st) j (data st)
        (error st) (numPages st) (numPanelsPerPage st) (zoomedPage st)
        (editingSceneId st) (editBuffer st)
  | SetData f =>
      mkAppState (step st) (mode st) (input st) (loading st) (developedStory st)
        (apply_data f (data st))
        (error st) (numPages st) (numPanelsPerPage st) (zoomedPage st)
        (editingSceneId st) (editBuffer st)
  | SetError e =>
      mkAppState (step st) (mode st) (input st) (loading st) (developedStory st) (data st)
        e (numPages st) (numPanelsPerPage st) (zoomedPage st)
        (editingSceneId st) (editBuffer st)
  | SetEditingSceneId i =>
      mkAppState (step st) (mode st) (input st) (loading st) (developedStory st) (data st)
        (error st) (numPages st) (numPanelsPerPage st) (zoomedPage st)
        i (editBuffer st)
  | SetEditBuffer s =>
      mkAppState (step st) (mode st) (input st) (loading st) (developedStory st) (data st)
        (error st) (numPages st) (numPanelsPerPage st) (zoomedPage st)
        (editingSceneId st) s
  end.

(** ** The world an [async] function runs in *)

Inductive Event : Type :=
| EvSet (u : Update)
| EvRequest (r : GenAI.Request)
| EvSettled (o : GenAI.Outcome)
| EvTimeout (ms : Z)
| EvConsoleError (e : JsError).

(** [background] holds the arguments of the [renderAllPagesSequentially]
    calls whose promise nobody awaits: they run once the handler that
    started them has finished. *)
Record World := mkWorld {
  app : AppState;
  trace : list Event;
  background : list StoryboardData.t
}.

Definition M (A : Type) : Type := World -> Completion A * World.

Definition ret {A} (a : A) : M A := fun w => (Return a, w).

Definition throw {A} (e : JsError) : M A := fun w => (Throw e, w).

Definition bind {A B} (c : M A) (k : A -> M B) : M B :=
  fun w =>
    match c w with
    | (Return a, w') => k a w'
    | (Throw e, w') => (Throw e, w')
    | (Unmodelled, w') => (Unmodelled, w')
    end.

Declare Scope js_scope.
Delimit Scope js_scope with js.
Notation "x <- c1 ;; c2" := (bind c1 (fun x => c2))
  (at level 61, c1 at next level, right associativity) : js_scope.
Notation "c1 ;; c2" := (bind c1 (fun _ => c2))
  (at level 61, right associativity) : js_scope.
Local Open Scope js_scope.

(** [try { body } catch (err) { handler }] *)
Definition try_catch {A} (body : M A) (handler : JsError -> M A) : M A :=
  fun w =>
    match body w with
    | (Throw e, w') => handler e w'
    | other => other
    end.

(** [try { body } finally { final }] *)
Definition try_finally {A} (body : M A) (final : M unit) : M A :=
  fun w =>
    match body w with
    | (Unmodelled, w') => (Unmodelled, w')
    | (c, w') =>
        match final w' with
        | (Return _, w'') => (c, w'')
        | (Throw e, w'') => (Throw e, w'')
        | (Unmodelled, w'') => (Unmodelled, w'')
        end
    end.

(** A value computed without effects ([JSON.parse]). *)
Definition lift {A} (c : Completion A) : M A := fun w => (c, w).

(** An unchecked cast. *)
Definition cast {A} (a : option A) : M A :=
  fun w => match a with Some x => (Return x, w) | None => (Unmodelled, w) end.

Definition log (es : list Event) (w : World) : World :=
  mkWorld (app w) (trace w ++ es) (background w).

(** The state the running closure captured at the last render. *)
Definition captured : M AppState := fun w => (Return (app w), w).

Definition set (u : Update) : M unit :=
  fun w => (Return tt, mkWorld (apply_update u (app w)) (trace w ++ [EvSet u]) (background w)).

(** [await new Promise(r => setTimeout(r, ms))] *)
Definition timeout (ms : Z) : M unit := fun w => (Return tt, log [EvTimeout ms] w).

Definition console_error (e : JsError) : M unit :=
  fun w => (Return tt, log [EvConsoleError e] w).

(** A call of [renderAllPagesSequentially] that is not awaited. *)
Definition spawn (d : StoryboardData.t) : M unit :=
  fun w => (Return tt, mkWorld (app w) (trace w) (background w ++ [d])).

Fixpoint requests_issued (t : list Event) : nat :=
  match t with
  | [] => 0
  | EvRequest _ :: rest => S (requests_issued rest)
  | _ :: rest => requests_issued rest
  end.


(** ** geminiService.ts *)

Section Pipeline.

Variable service : GenAI.Service.

(** [await ai.models.generateContent(request)] *)
Definition generateContent (request : GenAI.Request) : M GenAI.Response :=
  fun w =>
    let o := service (requests_issued (trace w)) request in
    (match o with
     | GenAI.Rejected e => Throw e
     | GenAI.Responded r => Return r
     end,
     log [EvRequest request; EvSettled o] w).

Definition developStoryConcept_prompt (idea : string) (targetPanels : Z) : string :=
  "You are a world-class cinematic director and screenplay logic engine. "
  ++ LF
  ++ "    TASK:"
  ++ LF
  ++ "    1. Expand the SEED IDEA into a compelling narrative summary."
  ++ LF
  ++ "    2. Write an EXHAUSTIVE SCREENPLAY containing exactly "
  ++ Z_to_string targetPanels
  ++ " distinct, sequential beats. "
  ++ LF
  ++ "       CRITICAL: Each beat must be a specific visual action or camera moment. "
  ++ LF
  ++ "       The flow must be perfectly natural with no gaps in time or logic. "
  ++ LF
  ++ "       Keep actions simple but descriptive enough for visual drafting."
  ++ LF
  ++ "    "
  ++ LF
  ++ "    SEED IDEA:"
  ++ LF
  ++ "    "
  ++ idea.

Definition developStoryConcept_schema : GenAI.Schema :=
  GenAI.OBJECT
    [("story", GenAI.STRING None);
     ("screenplay", GenAI.STRING (Some "The sequential screenplay beats."))]
    ["story"; "screenplay"].

Definition developStoryConcept_request (idea : string) (targetPanels : Z)
  : GenAI.Request :=
  GenAI.mkRequest "gemini-3-pro-preview"
    (GenAI.Text (developStoryConcept_prompt idea targetPanels))
    (GenAI.JsonConfig "application/json" developStoryConcept_schema).

Definition developStoryConcept (idea : string) (targetPanels : Z) : M Json :=
  response <- generateContent (developStoryConcept_request idea targetPanels) ;;
  lift (JSON_parse (or_default (GenAI.text response) "{}")).

Definition generateStoryboardFromText_prompt
    (text : string) (numPages numPanelsPerPage : Z) : string :=
  "You are a professional storyboard layout artist."
  ++ LF
  ++ "    TASK:"
  ++ LF
  ++ "    1. CHARACTER DESIGN: Use minimalist silhouettes or featureless mannequins with one identifier (e.g., "
  ++ DQUOTE
  ++ "Silhouette A"
  ++ DQUOTE
  ++ ", "
  ++ DQUOTE
  ++ "Mannequin with hat"
  ++ DQUOTE
  ++ ")."
  ++ LF
  ++ "    2. STRUCTURE: Break the screenplay into EXACTLY "
  ++ Z_to_string numPages
  ++ " PAGES."
  ++ LF
  ++ "    3. DENSITY: Each PAGE MUST contain EXACTLY "
  ++ Z_to_string numPanelsPerPage
  ++ " sequential PANELS."
  ++ LF
  ++ "    4. GRID ORDER: Panels must be organized for a grid layout that reads strictly LEFT-TO-RIGHT then NEXT ROW. "
  ++ LF
  ++ "       - Panel 1 is top-left."
  ++ LF
  ++ "       - Panel 2 is to its right."
  ++ LF
  ++ "       - Continue until row end, then move down to the next row starting from the left."
  ++ LF
  ++ "    "
  ++ LF
  ++ "    SCREENPLAY TEXT:"
  ++ LF
  ++ "    "
  ++ text.

Definition character_schema : GenAI.Schema :=
  GenAI.OBJECT
    [("id", GenAI.STRING None); ("name", GenAI.STRING None);
     ("appearance", GenAI.STRING None)]
    ["id"; "name"; "appearance"].

Definition scene_schema : GenAI.Schema :=
  GenAI.OBJECT
    [("id", GenAI.STRING None); ("sceneNumber", GenAI.INTEGER);
     ("location", GenAI.STRING None); ("action", GenAI.STRING None);
     ("dialogue", GenAI.STRING None); ("visualPrompt", GenAI.STRING None)]
    ["id"; "sceneNumber"; "location"; "action"; "visualPrompt"].

Definition page_schema : GenAI.Schema :=
  GenAI.OBJECT
    [("id", GenAI.STRING None); ("pageNumber", GenAI.INTEGER);
     ("pageLayoutDescription", GenAI.STRING None);
     ("scenes", GenAI.ARRAY scene_schema)]
    ["id"; "pageNumber"; "scenes"; "pageLayoutDescription"].

Definition storyboard_schema : GenAI.Schema :=
  GenAI.OBJECT
    [("title", GenAI.STRING None);
     ("characters", GenAI.ARRAY character_schema);
     ("pages", GenAI.ARRAY page_schema)]
    ["title"; "characters"; "pages"].

Definition generateStoryboardFromText_request
    (text : string) (numPages numPanelsPerPage : Z) : GenAI.Request :=
  GenAI.mkRequest "gemini-3-pro-preview"
    (GenAI.Text (generateStoryboardFromText_prompt text numPages numPanelsPerPage))
    (GenAI.JsonConfig "application/json" storyboard_schema).

Definition generateStoryboardFromText
    (text : string) (numPages numPanelsPerPage : Z) : M Json :=
  response <- generateContent
                (generateStoryboardFromText_request text numPages numPanelsPerPage) ;;
  lift (JSON_parse (or_default (GenAI.text response) "{}")).

Definition characterContext (allCharacters : list Character.t) : string :=
  join ". "
    (map (fun c => Character.name c ++ ": " ++ Character.appearance c) allCharacters).

Definition scenePrompt (s : Scene.t) : string :=
  "Panel " ++ Z_to_string (Scene.sceneNumber s) ++ ": " ++ Scene.visualPrompt s
  ++ ". Beat: " ++ Scene.action s.

Definition scenesPrompts (page : Page.t) : string :=
  join ". " (map scenePrompt (Page.scenes page)).

Definition fullPrompt (page : Page.t) (allCharacters : list Character.t) : string :=
  "Cinematic Technical Storyboard Page. "
  ++ LF
  ++ "  Vertical 3:4 Manga Layout. "
  ++ LF
  ++ "  GRID: "
  ++ nat_to_string (length (Page.scenes page))
  ++ " panels, reading strictly LEFT-TO-RIGHT, TOP-TO-BOTTOM (row by row)."
  ++ LF
  ++ "  CHARACTERS: "
  ++ characterContext allCharacters
  ++ " (Minimalist drafting mannequins). "
  ++ LF
  ++ "  PANEL CONTENT: "
  ++ scenesPrompts page
  ++ ". "
  ++ LF
  ++ "  STYLE: Rough director's ink sketch. Stark black lines on white paper. No colors, no gray tones. High technical contrast. "
  ++ LF
  ++ "  FOCUS: Anatomy blocking, camera perspective (Wide, Medium, Close-up), and environmental spatial logic.".

Definition generatePageImage_request
    (page : Page.t) (allCharacters : list Character.t) : GenAI.Request :=
  GenAI.mkRequest "gemini-2.5-flash-image"
    (GenAI.Parts [fullPrompt page allCharacters])
    (GenAI.ImageConfig "3:4").

(** The [for ... of] loop over the parts, with its [break]. *)
Fixpoint scan_parts (ps : list GenAI.Part) (imageUrl : string) : string :=
  match ps with
  | [] => imageUrl
  | part :: rest =>
      match GenAI.inlineData part with
      | Some blob => "data:image/png;base64," ++ GenAI.data blob
      | None => scan_parts rest imageUrl
      end
  end.

(** [response.candidates[0].content.parts]: reading [content] off an
    absent first candidate throws. *)
Definition first_candidate_parts (response : GenAI.Response) : M (list GenAI.Part) :=
  match GenAI.candidates response with
  | [] => throw (TypeError "Cannot read properties of undefined (reading 'content')")
  | c :: _ => ret (GenAI.parts (GenAI.content c))
  end.

Definition generatePageImage (page : Page.t) (allCharacters : list Character.t)
  : M string :=
  response <- generateContent (generatePageImage_request page allCharacters) ;;
  ps <- first_candidate_parts response ;;
  let imageUrl := scan_parts ps "" in
  if negb (truthy imageUrl) then throw (Error "Drafting system error.")
  else ret imageUrl.

(** ** App.tsx *)

(** [handleGeneratePage(pageId, currentData?)] *)
Definition handleGeneratePage (pageId : string) (currentData : option StoryboardData.t)
  : M unit :=
  st <- captured ;;
  match (match currentData with Some d => Some d | None => data st end) with
  | None => ret tt
  | Some activeData =>
      set (SetData (MarkGenerating pageId)) ;;
      try_catch
        (match find (fun p => String.eqb (Page.id p) pageId)
                    (StoryboardData.pages activeData) with
         | None => ret tt
         | Some target =>
             imageUrl <- generatePageImage target (StoryboardData.characters activeData) ;;
             set (SetData (AttachImage pageId imageUrl))
         end)
        (fun err =>
           console_error err ;;
           set (SetData (ClearGenerating pageId)))
  end.

(** The body of the [for] loop, over the copied [pages] array. *)
Fixpoint render_pages (pages : list Page.t) (currentData : StoryboardData.t) : M unit :=
  match pages with
  | [] => ret tt
  | p :: rest =>
      timeout 100 ;;
      handleGeneratePage (Page.id p) (Some currentData) ;;
      render_pages rest currentData
  end.

Definition renderAllPagesSequentially (currentData : StoryboardData.t) : M unit :=
  render_pages (StoryboardData.pages currentData) currentData.

Definition handleStartProduction : M unit :=
  st <- captured ;;
  if negb (truthy (trim (input st))) then ret tt
  else
    set (SetLoading true) ;;
    set (SetError None) ;;
    try_finally
      (try_catch
         (match mode st with
          | Mode.creative =>
              result <- developStoryConcept (input st) (totalPanels st) ;;
              set (SetDevelopedStory (Some result)) ;;
              set (SetStep AppStep.development)
          | Mode.quick =>
              result <- generateStoryboardFromText (input st) (numPages st)
                          (numPanelsPerPage st) ;;
              result <- cast (as_StoryboardData result) ;;
              set (SetData (Replace (Some result))) ;;
              set (SetStep AppStep.storyboard) ;;
              spawn result
          end)
         (fun err =>
            set (SetError
                   (Some (or_default (Some (message err))
                            "Production failed. Please refine your vision.")))))
      (set (SetLoading false)).

(** [!v] for a parsed value. *)
Definition json_falsy (v : Json) : bool :=
  match v with
  | JNull => true
  | JBool b => negb b
  | JString s => negb (truthy s)
  | JNumber lit =>
      let mantissa :=
        fst (span_digits
               (filter (fun c => negb ((c =? "-")%char || (c =? ".")%char))
                  (list_ascii_of_string lit))) in
      forallb (fun c => (c =? "0")%char) mantissa
  | JArray _ | JObject _ => false
  end.

Definition handleBuildManga : M unit :=
  st <- captured ;;
  match developedStory st with
  | None => ret tt
  | Some story =>
      if json_falsy story then ret tt
      else
        set (SetLoading true) ;;
        set (SetError None) ;;
        try_finally
          (try_catch
             (result <- generateStoryboardFromText (template_member "screenplay" story)
                          (numPages st) (numPanelsPerPage st) ;;
              result <- cast (as_StoryboardData result) ;;
              set (SetData (Replace (Some result))) ;;
              set (SetStep AppStep.storyboard) ;;
              spawn result)
             (fun err =>
                set (SetError
                       (Some (or_default (Some (message err))
                                "Critical logic error in sequence generation.")))))
          (set (SetLoading false))
  end.

Definition startEditing (scene : Scene.t) : M unit :=
  set (SetEditingSceneId (Some (Scene.id scene))) ;;
  set (SetEditBuffer (Scene.action scene)).

Definition saveEdit : M unit :=
  st <- captured ;;
  match data st, editingSceneId st with
  | Some _, Some sceneId =>
      if negb (truthy sceneId) then ret tt
      else
        set (SetData (EditAction sceneId (editBuffer st))) ;;
        set (SetEditingSceneId None)
  | _, _ => ret tt
  end.

(** The unawaited illustration loops, run after the handler. *)
Fixpoint render_each (ds : list StoryboardData.t) : M unit :=
  match ds with
  | [] => ret tt
  | d :: rest => renderAllPagesSequentially d ;; render_each rest
  end.

(** One user action: the handler, then what it left in the background. *)
Definition click (handler : M unit) : M unit :=
  fun w =>
    match handler w with
    | (Unmodelled, w') => (Unmodelled, w')
    | (c, w') =>
        match render_each (background w') (mkWorld (app w') (trace w') []) with
        | (Return _, w'') => (c, w'')
        | other => other
        end
    end.

End Pipeline.

(** ** What the theorems speak about *)

(** The completion of a text-generation call whose request is the [k]-th
    (lemmas [developStoryConcept_run], [generateStoryboardFromText_run]). *)
Definition text_outcome (service : GenAI.Service) (k : nat) (request : GenAI.Request)
  : Completion Json :=
  match service k request with
  | GenAI.Rejected e => Throw e
  | GenAI.Responded r => JSON_parse (or_default (GenAI.text r) "{}")
  end.

(** The completion of [generatePageImage] whose request is the [k]-th
    (lemma [generatePageImage_run]). *)
Definition image_outcome (service : GenAI.Service) (k : nat)
    (page : Page.t) (allCharacters : list Character.t) : Completion string :=
  match service k (generatePageImage_request page allCharacters) with
  | GenAI.Rejected e => Throw e
  | GenAI.Responded r =>
      match GenAI.candidates r with
      | [] => Throw (TypeError "Cannot read properties of undefined (reading 'content')")
      | c :: _ =>
          if truthy (scan_parts (GenAI.parts (GenAI.content c)) "")
          then Return (scan_parts (GenAI.parts (GenAI.content c)) "")
          else Throw (Error "Drafting system error.")
      end
  end.


(** How a page's illustration call is settled in the state and in the
    trace: the image attached, or the error logged and the mark cleared. *)
Definition settle_update (pageId : string) (o : Completion string) : DataUpdate :=
  match o with
  | Return imageUrl => AttachImage pageId imageUrl
  | _ => ClearGenerating pageId
  end.

Definition settle_events (pageId : string) (o : Completion string) : list Event :=
  match o with
  | Return imageUrl => [EvSet (SetData (AttachImage pageId imageUrl))]
  | Throw e => [EvConsoleError e; EvSet (SetData (ClearGenerating pageId))]
  | Unmodelled => []
  end.

(** What one page of the loop leaves in the trace, its request being the
    [k]-th: the pause, the in-progress mark, the request and its
    settlement, then the image attached or the error logged and the mark
    cleared. *)
Definition page_schedule (service : GenAI.Service) (k : nat)
    (d : StoryboardData.t) (p : Page.t) : list Event :=
  [EvTimeout 100;
   EvSet (SetData (MarkGenerating (Page.id p)));
   EvRequest (generatePageImage_request p (StoryboardData.characters d));
   EvSettled (service k (generatePageImage_request p (StoryboardData.characters d)))]
  ++ settle_events (Page.id p) (image_outcome service k p (StoryboardData.characters d)).

(** The pages in their stored order, one after the other. *)
Fixpoint schedule (service : GenAI.Service) (k : nat)
    (d : StoryboardData.t) (ps : list Page.t) : list Event :=
  match ps with
  | [] => []
  | p :: rest => page_schedule service k d p ++ schedule service (S k) d rest
  end.

(** The page the loop illustrates for [p]: [find] returns the first page
    of the storyboard with the identifier of [p]. *)
Definition target_of (d : StoryboardData.t) (p : Page.t) : Page.t :=
  match find (fun q => String.eqb (Page.id q) (Page.id p)) (StoryboardData.pages d) with
  | Some target => target
  | None => p
  end.

(** What the loop over [ps] leaves in the trace, whatever the identifiers:
    as [schedule], with the request built from [target_of d p]. *)
Fixpoint loop_events (service : GenAI.Service) (k : nat)
    (d : StoryboardData.t) (ps : list Page.t) : list Event :=
  match ps with
  | [] => []
  | p :: rest =>
      ([EvTimeout 100;
        EvSet (SetData (MarkGenerating (Page.id p)));
        EvRequest (generatePageImage_request (target_of d p) (StoryboardData.characters d));
        EvSettled (service k (generatePageImage_request (target_of d p)
                                (StoryboardData.characters d)))]
       ++ settle_events (Page.id p)
            (image_outcome service k (target_of d p) (StoryboardData.characters d)))
      ++ loop_events service (S k) d rest
  end.

(** A page once its illustration call has settled. *)
Definition settle_page (o : Completion string) (p : Page.t) : Page.t :=
  match o with
  | Return imageUrl => Page.with_image imageUrl (Page.with_isGenerating true p)
  | _ => Page.with_isGenerating false (Page.with_isGenerating true p)
  end.

(** The pages once the loop is over, the request of the first being the
    [k]-th. *)
Fixpoint finalize (service : GenAI.Service) (k : nat)
    (allCharacters : list Character.t) (ps : list Page.t) : list Page.t :=
  match ps with
  | [] => []
  | p :: rest =>
      settle_page (image_outcome service k p allCharacters) p
      :: finalize service (S k) allCharacters rest
  end.


(** The state after the updates of a trace, applied in order. *)
Fixpoint replay (t : list Event) (st : AppState) : AppState :=
  match t with
  | [] => st
  | EvSet u :: rest => replay rest (apply_update u st)
  | _ :: rest => replay rest st
  end.


(** [s'] is [s] with its action replaced when its identifier is [sceneId],
    and [s] itself otherwise. *)
Definition scene_edited (sceneId text : string) (s s' : Scene.t) : Prop :=
  Scene.id s' = Scene.id s /\
  Scene.sceneNumber s' = Scene.sceneNumber s /\
  Scene.location s' = Scene.location s /\
  Scene.timeOfDay s' = Scene.timeOfDay s /\
  Scene.dialogue s' = Scene.dialogue s /\
  Scene.visualPrompt s' = Scene.visualPrompt s /\
  Scene.imageUrl s' = Scene.imageUrl s /\
  Scene.isGenerating s' = Scene.isGenerating s /\
  Scene.action s' = (if String.eqb (Scene.id s) sceneId then text else Scene.action s) /\
  (Scene.id s <> sceneId -> s' = s).

Definition page_edited (sceneId text : string) (p p' : Page.t) : Prop :=
  Page.id p' = Page.id p /\
  Page.pageNumber p' = Page.pageNumber p /\
  Page.imageUrl p' = Page.imageUrl p /\
  Page.isGenerating p' = Page.isGenerating p /\
  Page.pageLayoutDescription p' = Page.pageLayoutDescription p /\
  Forall2 (scene_edited sceneId text) (Page.scenes p) (Page.scenes p').

Definition storyboard_edited (sceneId text : string) (d d' : StoryboardData.t) : Prop :=
  StoryboardData.title d' = StoryboardData.title d /\
  StoryboardData.characters d' = StoryboardData.characters d /\
  Forall2 (page_edited sceneId text) (StoryboardData.pages d) (StoryboardData.pages d').

(** Every cell but [data] and [editingSceneId] is the same. *)
Definition same_but_data_and_edit (st st' : AppState) : Prop :=
  step st' = step st /\ mode st' = mode st /\ input st' = input st /\
  loading st' = loading st /\ developedStory st' = developedStory st /\
  error st' = error st /\ numPages st' = numPages st /\
  numPanelsPerPage st' = numPanelsPerPage st /\ zoomedPage st' = zoomedPage st /\
  editBuffer st' = editBuffer st.

(** [q'] is [q] a while later: the same identifier, and no longer in
    progress if its identifier is among [ids]. *)
Definition settled (ids : list string) (q q' : Page.t) : Prop :=
  Page.id q' = Page.id q /\
  (In (Page.id q) ids -> Page.isGenerating q' = Some false).

(** *** Statements of the specification that the code does not meet *)

(** "On parse failure returns an empty result object rather than throwing
    past the boundary." *)
Definition parse_failure_gives_empty_result : Prop :=
  forall service idea targetPanels text numPages numPanelsPerPage w response body e,
    service (requests_issued (trace w)) (developStoryConcept_request idea targetPanels)
      = GenAI.Responded response ->
    service (requests_issued (trace w))
      (generateStoryboardFromText_request text numPages numPanelsPerPage)
      = GenAI.Responded response ->
    GenAI.text response = Some body ->
    JSON_parse body = Throw e ->
    fst (developStoryConcept service idea targetPanels w) = Return (JObject []) /\
    fst (generateStoryboardFromText service text numPages numPanelsPerPage w)
      = Return (JObject []).




(** "Saving an edit mutates exactly the scenes whose identifier equals the
    edited scene's identifier." *)
Definition saved_edit_reaches_the_scene : Prop :=
  forall w d scene,
    data (app w) = Some d ->
    (exists p, In p (StoryboardData.pages d) /\ In scene (Page.scenes p)) ->
    forall w1 text w2,
      snd (startEditing scene w) = w1 ->
      snd (set (SetEditBuffer text) w1) = w2 ->
      exists d',
        data (app (snd (saveEdit w2))) = Some d' /\
        storyboard_edited (Scene.id scene) text d d'.

(** ** Sample runs *)

Definition quoted (s : string) : string := DQUOTE ++ s ++ DQUOTE.

Definition keeper : Character.t :=
  Character.mk "c1" "Keeper" "Silhouette with a lantern".

Definition visitor : Character.t :=
  Character.mk "c2" "Visitor" "Mannequin with hat".

Definition sample_scene (id : string) (n : Z) (action : string) : Scene.t :=
  Scene.mk id n "Lighthouse" None action None ("Wide shot: " ++ action) None None.

Definition sample_page (id : string) (n : Z) : Page.t :=
  Page.mk id n
    [sample_scene (id ++ "-s1") 1 "The keeper climbs the stairs";
     sample_scene (id ++ "-s2") 2 "A bottle glints on the rocks"]
    None None "Two panels side by side".

Definition sample_storyboard : StoryboardData.t :=
  StoryboardData.mk "The Bottle" [keeper; visitor]
    [sample_page "p1" 1; sample_page "p2" 2; sample_page "p3" 3].

(** A response carrying one image after a text part. *)
Definition image_response (base64 : string) : GenAI.Response :=
  GenAI.mkResponse None
    [GenAI.mkCandidate
       (GenAI.mkContent
          [GenAI.mkPart (Some "Here is the page.") None;
           GenAI.mkPart None (Some (GenAI.mkBlob "image/png" base64))])].

(** A response of text parts only. *)
Definition text_only_response : GenAI.Response :=
  GenAI.mkResponse (Some "I cannot draw this.")
    [GenAI.mkCandidate
       (GenAI.mkContent [GenAI.mkPart (Some "I cannot draw this.") None])].


Definition text_response (body : string) : GenAI.Response :=
  GenAI.mkResponse (Some body) [].

Definition answering (r : GenAI.Response) : GenAI.Service :=
  fun _ _ => GenAI.Responded r.

Definition rejecting (e : JsError) : GenAI.Service :=
  fun _ _ => GenAI.Rejected e.

(** The second request is rejected, every other one is answered with an
    image. *)
Definition second_request_fails : GenAI.Service :=
  fun k _ =>
    if (k =? 1)%nat then GenAI.Rejected (Error "quota exceeded")
    else GenAI.Responded (image_response "iVBORw0KGgo=").


(** A body that follows the schema for one page of one panel. *)
Definition one_panel_body : string :=
  "{" ++ quoted "title" ++ ":" ++ quoted "The Bottle" ++ ","
      ++ quoted "characters" ++ ":[{" ++ quoted "id" ++ ":" ++ quoted "c1" ++ ","
      ++ quoted "name" ++ ":" ++ quoted "Keeper" ++ ","
      ++ quoted "appearance" ++ ":" ++ quoted "Silhouette with a lantern" ++ "}],"
      ++ quoted "pages" ++ ":[{" ++ quoted "id" ++ ":" ++ quoted "p1" ++ ","
      ++ quoted "pageNumber" ++ ":1,"
      ++ quoted "pageLayoutDescription" ++ ":" ++ quoted "single panel" ++ ","
      ++ quoted "scenes" ++ ":[{" ++ quoted "id" ++ ":" ++ quoted "s1" ++ ","
      ++ quoted "sceneNumber" ++ ":1,"
      ++ quoted "location" ++ ":" ++ quoted "Shore" ++ ","
      ++ quoted "action" ++ ":" ++ quoted "A bottle washes up" ++ ","
      ++ quoted "visualPrompt" ++ ":" ++ quoted "Wide shot of a shore" ++ "}]}]}".

(** The UTF-8 bytes of U+00E9 and of U+1F600. *)
Definition e_acute : string := String "195"%char (String "169"%char EmptyString).

Definition grinning_face : string :=
  String "240"%char (String "159"%char (String "152"%char (String "128"%char EmptyString))).

(** A space, U+00A0, a tab, U+2028 and a line feed. *)
Definition blank_text : string :=
  String "032"%char (String "194"%char (String "160"%char (String "009"%char
    (String "226"%char (String "128"%char (String "168"%char (String "010"%char
       EmptyString))))))).

Definition start_world (st : AppState) : World := mkWorld st [] [].

(** The state after the user typed [text] and chose [m]. *)
Definition typed (text : string) (m : Mode.t) : AppState :=
  mkAppState AppStep.input m text false None None None 5 10 None None "".

(** The state showing a storyboard. *)
Definition showing (d : StoryboardData.t) : AppState :=
  mkAppState AppStep.storyboard Mode.quick "A lighthouse keeper finds a message in a bottle"
    false None (Some d) None 5 10 None None "".

(** A storyboard whose only panel has the empty string as identifier. *)
Definition unnamed_scene : Scene.t := sample_scene "" 1 "The keeper waits".

Definition unnamed_storyboard : StoryboardData.t :=
  StoryboardData.mk "Untitled" []
    [Page.mk "p1" 1 [unnamed_scene] None None "single panel"].

(** Two pages, a panel identifier shared between them. *)
Definition shared_scene_storyboard : StoryboardData.t :=
  StoryboardData.mk "Shared" [keeper]
    [Page.mk "p1" 1 [sample_scene "s1" 1 "Dawn"; sample_scene "s2" 2 "Noon"]
       None None "row";
     Page.mk "p2" 2 [sample_scene "s1" 1 "Dusk"; sample_scene "s3" 2 "Night"]
       (Some "data:image/png;base64,AAAA") (Some false) "row"].

(** ** More of App.tsx: the inline handlers and what the view shows *)

(** [onClick={() => { setStep('input'); setData(null);
    setDevelopedStory(null); }}] of "Initiate New Production". *)
Definition handleNewProduction : M unit :=
  set (SetStep AppStep.input) ;;
  set (SetData (Replace None)) ;;
  set (SetDevelopedStory None).

(** [onClick={() => setStep('input')}] of "Restart Configuration". *)
Definition handleRestartConfiguration : M unit := set (SetStep AppStep.input).

(** [onClick={() => setEditingSceneId(null)}] of "Discard". *)
Definition discardEdit : M unit := set (SetEditingSceneId None).

(** [onChange={(e) => setEditBuffer(e.target.value)}] of the edit box. *)
Definition typeEdit (value : string) : M unit := set (SetEditBuffer value).

(** Which section of [<main>] is rendered: [step === 'input'],
    [step === 'development' && developedStory],
    [step === 'storyboard' && data]; nothing otherwise. *)
Inductive Screen : Type :=
| InputScreen
| DevelopmentScreen (story : Json)
| StoryboardScreen (d : StoryboardData.t)
| NoScreen.

Definition screen (st : AppState) : Screen :=
  match step st with
  | AppStep.input => InputScreen
  | AppStep.development =>
      match developedStory st with
      | Some story => if json_falsy story then NoScreen else DevelopmentScreen story
      | None => NoScreen
      end
  | AppStep.storyboard =>
      match data st with
      | Some d => StoryboardScreen d
      | None => NoScreen
      end
  end.

(** The frame of a page: [page.imageUrl ? <img/> : page.isGenerating ?
    spinner : <button>Inscribe Page</button>]. *)
Inductive PageFrame : Type :=
| ShowsImage (src : string)
| ShowsSpinner
| ShowsInscribeButton.

Definition page_frame (p : Page.t) : PageFrame :=
  match Page.imageUrl p with
  | Some url =>
      if truthy url then ShowsImage url
      else match Page.isGenerating p with
           | Some true => ShowsSpinner
           | _ => ShowsInscribeButton
           end
  | None =>
      match Page.isGenerating p with
      | Some true => ShowsSpinner
      | _ => ShowsInscribeButton
      end
  end.


(** What illustration leaves alone in a page. *)
Definition same_content (q q' : Page.t) : Prop :=
  Page.id q' = Page.id q /\
  Page.pageNumber q' = Page.pageNumber q /\
  Page.scenes q' = Page.scenes q /\
  Page.pageLayoutDescription q' = Page.pageLayoutDescription q.

(** Every cell but [data] is the same. *)
Definition same_but_data (st st' : AppState) : Prop :=
  step st' = step st /\ mode st' = mode st /\ input st' = input st /\
  loading st' = loading st /\ developedStory st' = developedStory st /\
  error st' = error st /\ numPages st' = numPages st /\
  numPanelsPerPage st' = numPanelsPerPage st /\ zoomedPage st' = zoomedPage st /\
  editingSceneId st' = editingSceneId st /\ editBuffer st' = editBuffer st.

(** What one call of [handleGeneratePage] for [pageId] makes of a page,
    the call's completion being [o]. *)
Definition page_after (pageId : string) (o : Completion string) (q q' : Page.t) : Prop :=
  same_content q q' /\
  (Page.id q <> pageId -> q' = q) /\
  (Page.id q = pageId ->
   Page.isGenerating q' = Some false /\
   Page.imageUrl q' = match o with
                      | Return imageUrl => Some imageUrl
                      | _ => Page.imageUrl q
                      end).

(** What the illustrator is told of a scene and of a character. *)
Definition scene_told (s : Scene.t) : Z * string * string :=
  (Scene.sceneNumber s, Scene.visualPrompt s, Scene.action s).

Definition character_told (c : Character.t) : string * string :=
  (Character.name c, Character.appearance c).

(** A storyboard with a page that already has its image. *)
Definition illustrated_storyboard : StoryboardData.t :=
  StoryboardData.mk "The Bottle" [keeper]
    [Page.mk "p1" 1 [sample_scene "s1" 1 "Dawn"]
       (Some "data:image/png;base64,AAAA") (Some false) "single panel";
     sample_page "p2" 2].

(** The state after a story was developed. *)
Definition developed (story : Json) : AppState :=
  mkAppState AppStep.development Mode.creative "A lighthouse keeper" false
    (Some story) None None 5 4 None None "".

(** One edit from the controls of a panel: the pencil, the text typed in
    the box, "Commit". *)
Definition edit_session (scene : Scene.t) (text : string) : M unit :=
  startEditing scene ;; typeEdit text ;; saveEdit.

(** What illustration leaves alone in the state: every cell but the data,
    and in the data everything but the image and the in-progress flag of
    the pages. *)
Definition only_frames_differ (st st' : AppState) : Prop :=
  same_but_data st st' /\
  match data st with
  | None => data st' = None
  | Some dc =>
      exists dc', data st' = Some dc' /\
        StoryboardData.title dc' = StoryboardData.title dc /\
        StoryboardData.characters dc' = StoryboardData.characters dc /\
        Forall2 same_content (StoryboardData.pages dc) (StoryboardData.pages dc')
  end.

(** What [one_panel_body] parses to, and the storyboard it is read as. *)
Definition one_panel_value : Json := Eval vm_compute in
    match JSON_parse one_panel_body with Return j => j | _ => JNull end.

Definition one_panel_storyboard : StoryboardData.t := Eval vm_compute in
    match as_StoryboardData one_panel_value with
    | Some d => d
    | None => StoryboardData.mk "" [] []
    end.

(** A response with the text [one_panel_body] and one image. *)
Definition storyboard_and_image_response : GenAI.Response :=
  GenAI.mkResponse (Some one_panel_body)
    [GenAI.mkCandidate
       (GenAI.mkContent [GenAI.mkPart None (Some (GenAI.mkBlob "image/jpeg" "AAAA"))])].

(** *** Fuel invariants of the parser *)

Definition value_ok fuel := forall s, 2 * length s < fuel ->
  parse_value fuel s <> Parsed_out_of_fuel /\
  forall v r, parse_value fuel s = Parsed_ok v r -> length r < length s.
Definition elements_ok fuel := forall s acc, 2 * length s + 1 < fuel ->
  parse_elements fuel s acc <> Parsed_out_of_fuel /\
  forall v r, parse_elements fuel s acc = Parsed_ok v r -> length r < length s.
Definition members_ok fuel := forall s acc, 2 * length s + 1 < fuel ->
  parse_members fuel s acc <> Parsed_out_of_fuel /\
  forall v r, parse_members fuel s acc = Parsed_ok v r -> length r < length s.

(** Closes the branches in which the parser reports a syntax error. *)
Ltac stuck := split; [discriminate | intros; discriminate].


(** * Properties

    ** [JSON.parse] always has enough fuel *)

Lemma skip_ws_length s : length (skip_ws s) <= length s.
Proof.
  induction s as [|c s IH]; simpl; [lia|].
  destruct (is_json_ws c); simpl; lia.
Qed.

Lemma span_digits_length s :
  length (fst (span_digits s)) + length (snd (span_digits s)) = length s.
Proof.
  induction s as [|c s IH]; simpl; [reflexivity|].
  destruct (is_digit c); simpl; [|reflexivity].
  destruct (span_digits s) as [ds r]; simpl in *; lia.
Qed.

Lemma digits1_rest s ds r : digits1 s = Some (ds, r) -> length r < length s.
Proof.
  unfold digits1. pose proof (span_digits_length s) as H.
  destruct (span_digits s) as [[|d ds'] r']; simpl in *; [discriminate|].
  intros E; inversion E; subst. lia.
Qed.

Lemma number_int_rest s i r : number_int s = Some (i, r) -> length r < length s.
Proof.
  destruct s as [|c s]; simpl; [discriminate|].
  destruct (c =? "0")%char.
  - intros E; inversion E; subst; simpl; lia.
  - destruct (is_digit c); [|discriminate].
    pose proof (span_digits_length s) as H.
    destruct (span_digits s) as [ds r']; simpl in *.
    intros E; inversion E; subst; lia.
Qed.

Lemma number_frac_rest s f r : number_frac s = Some (f, r) -> length r <= length s.
Proof.
  destruct s as [|c s]; simpl.
  - intros E; inversion E; subst; simpl; lia.
  - destruct (c =? ".")%char.
    + destruct (digits1 s) as [[ds r']|] eqn:D; [|discriminate].
      apply digits1_rest in D. intros E; inversion E; subst; lia.
    + intros E; inversion E; subst; simpl; lia.
Qed.

Lemma number_exp_rest s f r : number_exp s = Some (f, r) -> length r <= length s.
Proof.
  destruct s as [|c s]; simpl.
  - intros E; inversion E; subst; simpl; lia.
  - destruct ((c =? "e")%char || (c =? "E")%char).
    + destruct s as [|d s'].
      * simpl. discriminate.
      * destruct ((d =? "+")%char || (d =? "-")%char).
        -- destruct (digits1 s') as [[ds r']|] eqn:D; [|discriminate].
           apply digits1_rest in D. intros E; inversion E; subst; simpl; lia.
        -- destruct (digits1 (d :: s')) as [[ds r']|] eqn:D; [|discriminate].
           apply digits1_rest in D. intros E; inversion E; subst; simpl in *; lia.
    + intros E; inversion E; subst; simpl; lia.
Qed.

Lemma parse_number_rest s lit r : parse_number s = Some (lit, r) -> length r < length s.
Proof.
  unfold parse_number.
  assert (G : forall sign s1, length s1 <= length s ->
     match number_int s1 with
     | Some (i, s2) => match number_frac s2 with
        | Some (f, s3) => match number_exp s3 with
           | Some (e, s4) => Some ((sign ++ i ++ f ++ e)%list, s4)
           | None => None end
        | None => None end
     | None => None end = Some (lit, r) -> length r < length s).
  { intros sign s1 L.
    destruct (number_int s1) as [[i s2]|] eqn:I; [|discriminate].
    apply number_int_rest in I.
    destruct (number_frac s2) as [[f s3]|] eqn:F; [|discriminate].
    apply number_frac_rest in F.
    destruct (number_exp s3) as [[e s4]|] eqn:X; [|discriminate].
    apply number_exp_rest in X. intros E; inversion E; subst. lia. }
  destruct s as [|c s'].
  - apply G; simpl; lia.
  - destruct (c =? "-")%char; apply G; simpl; lia.
Qed.

Lemma parse_string_chars_bounded n : forall s pending acc,
  length s <= n ->
  parse_string_chars s pending acc <> Parsed_out_of_fuel /\
  forall str r, parse_string_chars s pending acc = Parsed_ok str r -> length r < length s.
Proof.
  induction n as [|n IH]; intros s pending acc L.
  { destruct s; [|cbn [length] in L; lia]. cbn [parse_string_chars]. split; [discriminate | intros; discriminate]. }
  assert (IH' : forall t p a, length t < length s ->
     parse_string_chars t p a <> Parsed_out_of_fuel /\
     forall str r, parse_string_chars t p a = Parsed_ok str r -> length r < length s).
  { intros t p a Lt. destruct (IH t p a ltac:(lia)) as [A B]. split; [exact A|].
    intros str r E. specialize (B _ _ E). lia. }
  clear IH.
  destruct s as [|c rest]; cbn [parse_string_chars]; [split; [discriminate | intros; discriminate]|].
  destruct (c =? "034")%char.
  { split; [discriminate|]. intros str r E; inversion E; subst; cbn [length]; lia. }
  destruct (c =? "\")%char.
  { destruct rest as [|e rest1]; [split; [discriminate | intros; discriminate]|].
    destruct (e =? "u")%char.
    - destruct rest1 as [|h1 [|h2 [|h3 [|h4 rest2]]]];
        try (split; [discriminate | intros; discriminate]).
      destruct (hex4 h1 h2 h3 h4) as [u|]; [|split; [discriminate | intros; discriminate]].
      destruct pending as [hi|].
      + destruct (is_low_surrogate u); [apply IH'; cbn [length]; lia|].
        destruct (is_high_surrogate u); apply IH'; cbn [length]; lia.
      + destruct (is_high_surrogate u); apply IH'; cbn [length]; lia.
    - destruct (simple_escape e); [apply IH'; cbn [length]; lia|].
      split; [discriminate | intros; discriminate]. }
  destruct (nat_of_ascii c <? 32)%nat; [split; [discriminate | intros; discriminate]|].
  apply IH'; cbn [length]; lia.
Qed.

Lemma parse_string_chars_rest s pending acc str r :
  parse_string_chars s pending acc = Parsed_ok str r -> length r < length s.
Proof. apply (parse_string_chars_bounded (length s)); lia. Qed.

Lemma parse_string_chars_fuel s pending acc :
  parse_string_chars s pending acc <> Parsed_out_of_fuel.
Proof. apply (parse_string_chars_bounded (length s)); lia. Qed.

Lemma starts_with_rest lit s r :
  starts_with lit s = Some r -> length r + length lit = length s.
Proof.
  unfold starts_with.
  destruct (list_eq_dec ascii_dec (firstn (length lit) s) lit) as [E|]; [|discriminate].
  intros H; inversion H; subst.
  rewrite length_skipn.
  assert (length (firstn (length lit) s) = length lit) by (rewrite E; reflexivity).
  rewrite length_firstn in H0. lia.
Qed.

Lemma skip_ws_cons s c rest : skip_ws s = c :: rest -> length rest < length s.
Proof. intros E. pose proof (skip_ws_length s) as H. rewrite E in H. simpl in H. lia. Qed.

Lemma parse_fuel_enough fuel : value_ok fuel /\ elements_ok fuel /\ members_ok fuel.
Proof.
  induction fuel as [|fuel [IHv [IHe IHm]]].
  { repeat split; intros; lia. }
  split; [|split].
  - intros s L. simpl.
    destruct (skip_ws s) as [|c rest] eqn:W; [stuck|].
    apply skip_ws_cons in W.
    destruct (c =? "{")%char.
    { destruct (skip_ws rest) as [|c' rest'] eqn:W'; [stuck|].
      apply skip_ws_cons in W'.
      destruct (c' =? "}")%char.
      - split; [discriminate|]. intros v r E; inversion E; subst. lia.
      - destruct (IHm (c' :: rest') [] ltac:(simpl; lia)) as [A B].
        split; [exact A|]. intros v r E. specialize (B _ _ E). simpl in B. lia. }
    destruct (c =? "[")%char.
    { destruct (skip_ws rest) as [|c' rest'] eqn:W'; [stuck|].
      apply skip_ws_cons in W'.
      destruct (c' =? "]")%char.
      - split; [discriminate|]. intros v r E; inversion E; subst. lia.
      - destruct (IHe (c' :: rest') [] ltac:(simpl; lia)) as [A B].
        split; [exact A|]. intros v r E. specialize (B _ _ E). simpl in B. lia. }
    destruct (c =? "034")%char.
    { destruct (parse_string_chars rest None []) as [str r| |] eqn:P.
      - apply parse_string_chars_rest in P. split; [discriminate|].
        intros v r' E; inversion E; subst. lia.
      - stuck.
      - exfalso. exact (parse_string_chars_fuel _ _ _ P). }
    destruct (starts_with _ (c :: rest)) as [r|] eqn:T.
    { apply starts_with_rest in T. simpl in T. split; [discriminate|].
      intros v r' E; inversion E; subst. lia. }
    clear T. destruct (starts_with _ (c :: rest)) as [r|] eqn:T.
    { apply starts_with_rest in T. simpl in T. split; [discriminate|].
      intros v r' E; inversion E; subst. lia. }
    clear T. destruct (starts_with _ (c :: rest)) as [r|] eqn:T.
    { apply starts_with_rest in T. simpl in T. split; [discriminate|].
      intros v r' E; inversion E; subst. lia. }
    clear T. destruct (parse_number (c :: rest)) as [[lit r]|] eqn:N; [|stuck].
    apply parse_number_rest in N. simpl in N. split; [discriminate|].
    intros v r' E; inversion E; subst. lia.
  - intros s acc L. simpl.
    destruct (IHv s ltac:(lia)) as [A B].
    destruct (parse_value fuel s) as [v r| |] eqn:P; [|stuck|congruence].
    specialize (B _ _ eq_refl).
    destruct (skip_ws r) as [|c rest] eqn:W; [stuck|].
    apply skip_ws_cons in W.
    destruct (c =? ",")%char.
    { destruct (IHe rest (v :: acc) ltac:(lia)) as [A' B'].
      split; [exact A'|]. intros v' r' E. specialize (B' _ _ E). lia. }
    destruct (c =? "]")%char; [|stuck].
    split; [discriminate|]. intros v' r' E; inversion E; subst. lia.
  - intros s acc L. simpl.
    destruct (skip_ws s) as [|q rest] eqn:W; [stuck|].
    apply skip_ws_cons in W.
    destruct (q =? "034")%char; [|stuck].
    destruct (parse_string_chars rest None []) as [key r1| |] eqn:P;
      [|stuck|exfalso; exact (parse_string_chars_fuel _ _ _ P)].
    apply parse_string_chars_rest in P.
    destruct (skip_ws r1) as [|colon r2] eqn:W1; [stuck|].
    apply skip_ws_cons in W1.
    destruct (colon =? ":")%char; [|stuck].
    destruct (IHv r2 ltac:(lia)) as [A B].
    destruct (parse_value fuel r2) as [v r3| |] eqn:PV; [|stuck|congruence].
    specialize (B _ _ eq_refl).
    destruct (skip_ws r3) as [|c r4] eqn:W3; [stuck|].
    apply skip_ws_cons in W3.
    destruct (c =? ",")%char.
    { destruct (IHm r4 ((key, v) :: acc) ltac:(lia)) as [A' B'].
      split; [exact A'|]. intros v' r' E. specialize (B' _ _ E). lia. }
    destruct (c =? "}")%char; [|stuck].
    split; [discriminate|]. intros v' r' E; inversion E; subst. lia.
Qed.

Lemma JSON_parse_is_modelled text : JSON_parse text <> Unmodelled.
Proof.
  unfold JSON_parse.
  destruct (parse_fuel_enough (2 * length (list_ascii_of_string text) + 1)) as [V _].
  destruct (V (list_ascii_of_string text) ltac:(lia)) as [A _].
  destruct (parse_value _ _) as [v r| |]; [|discriminate|congruence].
  destruct (skip_ws r); discriminate.
Qed.

(** ** Printing integers *)

Lemma digit_char_value d :
  d < 10 ->
  is_digit (digit_char d) = true /\ (N_of_ascii (digit_char d) - 48)%N = N.of_nat d.
Proof.
  intros H.
  do 10 (destruct d as [|d]; [split; reflexivity|]). lia.
Qed.

Lemma nat_digits_value fuel : forall n acc,
  n < fuel ->
  digits_value (list_ascii_of_string (nat_digits fuel n acc)) 0
  = digits_value (list_ascii_of_string acc) (N.of_nat n).
Proof.
  induction fuel as [|fuel IH]; intros n acc L; [lia|].
  cbn [nat_digits].
  pose proof (Nat.mod_upper_bound n 10 ltac:(lia)) as B.
  destruct (digit_char_value (n mod 10) B) as [D V].
  pose proof (Nat.div_mod_eq n 10) as E.
  destruct (n / 10) as [|q] eqn:Q.
  - cbn [list_ascii_of_string digits_value]. rewrite D, V. f_equal. lia.
  - rewrite IH by lia.
    cbn [list_ascii_of_string digits_value]. rewrite D, V. f_equal. lia.
Qed.

(** The text of a non-negative integer reads back as that integer. *)
Lemma nat_to_string_value n :
  digits_value (list_ascii_of_string (nat_to_string n)) 0 = Some (N.of_nat n).
Proof. unfold nat_to_string. rewrite nat_digits_value by lia. reflexivity. Qed.

(** ** [trim] and [JSON.parse] on sample texts *)

Example trim_inner_space_stays :
  trim (blank_text ++ "a lighthouse  keeper" ++ blank_text) = "a lighthouse  keeper".
Proof. vm_compute. reflexivity. Qed.

Example trim_blank_text : trim blank_text = "".
Proof. vm_compute. reflexivity. Qed.

Example blank_text_is_white_space : only_white_space blank_text = true.
Proof. vm_compute. reflexivity. Qed.

Example parse_empty_object : JSON_parse "{}" = Return (JObject []).
Proof. vm_compute. reflexivity. Qed.

Example parse_empty_text : JSON_parse "" = Throw JSON_syntax_error.
Proof. vm_compute. reflexivity. Qed.

Example parse_trailing_comma : JSON_parse "[1,]" = Throw JSON_syntax_error.
Proof. vm_compute. reflexivity. Qed.

Example parse_leading_zero : JSON_parse "[01]" = Throw JSON_syntax_error.
Proof. vm_compute. reflexivity. Qed.

Example parse_nested :
  JSON_parse " [1, -2.5e+3, true, null, {}, [[]]] "
  = Return (JArray [JNumber "1"; JNumber "-2.5e+3"; JBool true; JNull;
                    JObject []; JArray [JArray []]]).
Proof. vm_compute. reflexivity. Qed.

Example parse_escapes :
  JSON_parse (quoted "a\n\u0041\u00e9") = Return (JString ("a" ++ LF ++ "A" ++ e_acute)).
Proof. vm_compute. reflexivity. Qed.

Example parse_surrogate_pair :
  JSON_parse (quoted "\ud83d\ude00") = Return (JString grinning_face).
Proof. vm_compute. reflexivity. Qed.

Example read_one_panel_body :
  match JSON_parse one_panel_body with
  | Return j => as_StoryboardData j
  | _ => None
  end
  = Some (StoryboardData.mk "The Bottle" [keeper]
            [Page.mk "p1" 1
               [Scene.mk "s1" 1 "Shore" None "A bottle washes up" None
                  "Wide shot of a shore" None None]
               None None "single panel"]).
Proof. vm_compute. reflexivity. Qed.

(** ** The three service functions as pure outcomes *)

Lemma requests_issued_app t u :
  requests_issued (t ++ u)%list = requests_issued t + requests_issued u.
Proof.
  induction t as [|e t IH]; simpl; [reflexivity|].
  destruct e; simpl; rewrite IH; reflexivity.
Qed.

Lemma text_outcome_is_modelled service k request :
  text_outcome service k request <> Unmodelled.
Proof.
  unfold text_outcome. destruct (service k request); [discriminate|].
  apply JSON_parse_is_modelled.
Qed.

Lemma image_outcome_is_modelled service k page allCharacters :
  image_outcome service k page allCharacters <> Unmodelled.
Proof.
  unfold image_outcome.
  destruct (service k _) as [e|r]; [discriminate|].
  destruct (GenAI.candidates r); [discriminate|].
  destruct (truthy _); discriminate.
Qed.

Lemma developStoryConcept_run service idea targetPanels w :
  developStoryConcept service idea targetPanels w =
  (text_outcome service (requests_issued (trace w))
     (developStoryConcept_request idea targetPanels),
   log [EvRequest (developStoryConcept_request idea targetPanels);
        EvSettled (service (requests_issued (trace w))
                     (developStoryConcept_request idea targetPanels))] w).
Proof.
  unfold developStoryConcept, bind, generateContent, text_outcome, lift.
  destruct (service _ _); reflexivity.
Qed.

Lemma generateStoryboardFromText_run service text numPages numPanelsPerPage w :
  generateStoryboardFromText service text numPages numPanelsPerPage w =
  (text_outcome service (requests_issued (trace w))
     (generateStoryboardFromText_request text numPages numPanelsPerPage),
   log [EvRequest (generateStoryboardFromText_request text numPages numPanelsPerPage);
        EvSettled (service (requests_issued (trace w))
                     (generateStoryboardFromText_request text numPages numPanelsPerPage))] w).
Proof.
  unfold generateStoryboardFromText, bind, generateContent, text_outcome, lift.
  destruct (service _ _); reflexivity.
Qed.

Lemma generatePageImage_run service page allCharacters w :
  generatePageImage service page allCharacters w =
  (image_outcome service (requests_issued (trace w)) page allCharacters,
   log [EvRequest (generatePageImage_request page allCharacters);
        EvSettled (service (requests_issued (trace w))
                     (generatePageImage_request page allCharacters))] w).
Proof.
  unfold generatePageImage, bind, generateContent, image_outcome, first_candidate_parts.
  destruct (service _ _) as [e|r]; [reflexivity|].
  destruct (GenAI.candidates r) as [|c rest]; [reflexivity|]. simpl.
  destruct (truthy _); reflexivity.
Qed.

(** The scan returns the URL of the first part with inline data, and the
    initial value when there is none. *)
Lemma scan_parts_found ps init :
  (exists before part blob after,
      ps = (before ++ part :: after)%list /\
      Forall (fun q => GenAI.inlineData q = None) before /\
      GenAI.inlineData part = Some blob /\
      scan_parts ps init = "data:image/png;base64," ++ GenAI.data blob) \/
  (Forall (fun q => GenAI.inlineData q = None) ps /\ scan_parts ps init = init).
Proof.
  induction ps as [|p ps IH]; simpl.
  - right. split; [constructor | reflexivity].
  - destruct (GenAI.inlineData p) as [blob|] eqn:E.
    + left. exists [], p, blob, ps. repeat split; auto.
    + destruct IH as [(before & part & blob & after & -> & F & I & S)|[F S]].
      * left. exists (p :: before), part, blob, after. repeat split; auto.
      * right. split; [constructor; assumption | assumption].
Qed.


(** ** C1: a body that is not JSON *)

(** C1, counterexample.  The service answers a request with the text
    "Sorry, I cannot help.", which is not JSON: [developStoryConcept] and
    [generateStoryboardFromText] both throw the parser's [SyntaxError];
    neither returns an empty object. *)
Lemma malformed_body_is_thrown :
  JSON_parse "Sorry, I cannot help." = Throw JSON_syntax_error /\
  fst (developStoryConcept (answering (text_response "Sorry, I cannot help."))
         "A lighthouse keeper finds a message in a bottle" 20
         (start_world initial_state)) = Throw JSON_syntax_error /\
  fst (generateStoryboardFromText (answering (text_response "Sorry, I cannot help."))
         "The keeper climbs. A bottle glints." 5 4
         (start_world initial_state)) = Throw JSON_syntax_error /\
  ~ parse_failure_gives_empty_result.
Proof.
  split; [vm_compute; reflexivity|].
  split; [vm_compute; reflexivity|].
  split; [vm_compute; reflexivity|].
  intros claim.
  destruct (claim (answering (text_response "Sorry, I cannot help."))
              "idea" 20%Z "text" 5%Z 4%Z (start_world initial_state)
              (text_response "Sorry, I cannot help.") "Sorry, I cannot help."
              JSON_syntax_error eq_refl eq_refl eq_refl
              ltac:(vm_compute; reflexivity)) as [H _].
  rewrite developStoryConcept_run in H. vm_compute in H. discriminate H.
Qed.

(** C1, as the code has it.  [JSON.parse(response.text || "{}")]: a
    response without text, or with the empty text, gives the empty object
    [{}]; a non-empty text that is not JSON makes both functions throw
    the error of [JSON.parse]. *)
Theorem text_body_is_defaulted_or_parsed :
  forall service idea targetPanels text numPages numPanelsPerPage w response,
    service (requests_issued (trace w)) (developStoryConcept_request idea targetPanels)
      = GenAI.Responded response ->
    service (requests_issued (trace w))
      (generateStoryboardFromText_request text numPages numPanelsPerPage)
      = GenAI.Responded response ->
    (GenAI.text response = None \/ GenAI.text response = Some "" ->
       fst (developStoryConcept service idea targetPanels w) = Return (JObject []) /\
       fst (generateStoryboardFromText service text numPages numPanelsPerPage w)
         = Return (JObject [])) /\
    (forall body e,
       GenAI.text response = Some body -> body <> "" -> JSON_parse body = Throw e ->
       fst (developStoryConcept service idea targetPanels w) = Throw e /\
       fst (generateStoryboardFromText service text numPages numPanelsPerPage w)
         = Throw e).
Proof.
  intros service idea targetPanels text numPages numPanelsPerPage w response R1 R2.
  rewrite developStoryConcept_run, generateStoryboardFromText_run. simpl.
  unfold text_outcome. rewrite R1, R2. split.
  - intros [E|E]; rewrite E; simpl; split; vm_compute; reflexivity.
  - intros body e E NE P. rewrite E. simpl.
    destruct body as [|c body]; [contradiction NE; reflexivity|]. simpl.
    rewrite P. split; reflexivity.
Qed.

Lemma text_body_is_defaulted_or_parsed_witness :
  (fst (developStoryConcept (answering (text_response ""))
          "A lighthouse keeper" 20 (start_world initial_state)) = Return (JObject []) /\
   fst (generateStoryboardFromText (answering (text_response ""))
          "The keeper climbs." 5 4 (start_world initial_state)) = Return (JObject [])).
Proof.
  apply (text_body_is_defaulted_or_parsed (answering (text_response ""))
           "A lighthouse keeper" 20%Z "The keeper climbs." 5%Z 4%Z
           (start_world initial_state) (text_response "") eq_refl eq_refl).
  right. reflexivity.
Defined.

(** ** C2 and C10: scanning the response for the image *)




(** C10.  A handle that [generatePageImage] returns is not empty: it is
    "data:image/png;base64," followed by the data of the first part, among
    those of the first candidate, that carries inline data. *)
Theorem returned_handle_is_a_data_uri :
  forall service page allCharacters w imageUrl,
    fst (generatePageImage service page allCharacters w) = Return imageUrl ->
    imageUrl <> "" /\
    exists response c others before part blob after,
      service (requests_issued (trace w)) (generatePageImage_request page allCharacters)
        = GenAI.Responded response /\
      GenAI.candidates response = c :: others /\
      GenAI.parts (GenAI.content c) = (before ++ part :: after)%list /\
      Forall (fun q => GenAI.inlineData q = None) before /\
      GenAI.inlineData part = Some blob /\
      imageUrl = "data:image/png;base64," ++ GenAI.data blob.
Proof.
  intros service page allCharacters w imageUrl.
  rewrite generatePageImage_run. simpl. unfold image_outcome.
  destruct (service _ _) as [e|response] eqn:R; [discriminate|].
  destruct (GenAI.candidates response) as [|c others] eqn:C; [discriminate|].
  destruct (scan_parts_found (GenAI.parts (GenAI.content c)) "")
    as [(before & part & blob & after & P & F & I & S)|[F S]].
  - rewrite S. simpl. intros H; inversion H; subst imageUrl.
    split; [discriminate|].
    exists response, c, others, before, part, blob, after. repeat split; auto.
  - rewrite S. simpl. discriminate.
Qed.

Lemma returned_handle_is_a_data_uri_witness :
  "data:image/png;base64,iVBORw0KGgo=" <> "".
Proof.
  exact (proj1 (returned_handle_is_a_data_uri (answering (image_response "iVBORw0KGgo="))
                  (sample_page "p1" 1) [keeper; visitor]
                  (start_world (showing sample_storyboard))
                  "data:image/png;base64,iVBORw0KGgo=" eq_refl)).
Defined.

(** ** Texts: appending, joining, trimming *)

Lemma string_app_assoc (a b c : string) : (a ++ b) ++ c = a ++ (b ++ c).
Proof. induction a as [|x a IH]; simpl; [reflexivity | rewrite IH; reflexivity]. Qed.

Lemma string_app_nil_r (a : string) : a ++ "" = a.
Proof. induction a as [|x a IH]; simpl; [reflexivity | rewrite IH; reflexivity]. Qed.

Lemma occurs_in_refl s : occurs_in s s.
Proof. exists "", "". simpl. rewrite string_app_nil_r. reflexivity. Qed.

Lemma occurs_in_after a s t : occurs_in s t -> occurs_in s (a ++ t).
Proof.
  intros (before & after & ->). exists (a ++ before), after.
  rewrite string_app_assoc. reflexivity.
Qed.

Lemma occurs_in_before b s t : occurs_in s t -> occurs_in s (t ++ b).
Proof.
  intros (before & after & ->). exists before, (after ++ b).
  rewrite !string_app_assoc. reflexivity.
Qed.

Lemma occurs_in_head s after : occurs_in s (s ++ after).
Proof. apply occurs_in_before, occurs_in_refl. Qed.

Lemma occurs_in_join sep x l : In x l -> occurs_in x (join sep l).
Proof.
  induction l as [|y l IH]; intros H; [destruct H|].
  destruct H as [->|H].
  - destruct l as [|z l]; simpl; [apply occurs_in_refl | apply occurs_in_head].
  - destruct l as [|z l]; [destruct H|].
    change (join sep (y :: z :: l)) with (y ++ sep ++ join sep (z :: l)).
    apply occurs_in_after, occurs_in_after, IH, H.
Qed.

Lemma trimStart_unfold s :
  trimStart s =
  match s with
  | EmptyString => EmptyString
  | String a r1 =>
      if white1 (nat_of_ascii a) then trimStart r1
      else
        match r1 with
        | EmptyString => s
        | String b r2 =>
            if white2 (nat_of_ascii a) (nat_of_ascii b) then trimStart r2
            else
              match r2 with
              | EmptyString => s
              | String c r3 =>
                  if white3 (nat_of_ascii a) (nat_of_ascii b) (nat_of_ascii c)
                  then trimStart r3
                  else s
              end
        end
  end.
Proof. destruct s; reflexivity. Qed.

Lemma only_white_space_unfold s :
  only_white_space s =
  match s with
  | EmptyString => true
  | String a r1 =>
      if white1 (nat_of_ascii a) then only_white_space r1
      else
        match r1 with
        | EmptyString => false
        | String b r2 =>
            if white2 (nat_of_ascii a) (nat_of_ascii b) then only_white_space r2
            else
              match r2 with
              | EmptyString => false
              | String c r3 =>
                  if white3 (nat_of_ascii a) (nat_of_ascii b) (nat_of_ascii c)
                  then only_white_space r3
                  else false
              end
        end
  end.
Proof. destruct s; reflexivity. Qed.

Lemma trimStart_blank n : forall s,
  String.length s <= n -> only_white_space s = true -> trimStart s = "".
Proof.
  induction n as [|n IH]; intros s L H.
  - destruct s; [reflexivity | cbn [String.length] in L; lia].
  - rewrite trimStart_unfold. rewrite only_white_space_unfold in H.
    destruct s as [|a r1]; [reflexivity|]. cbn [String.length] in L.
    destruct (white1 (nat_of_ascii a)); [apply IH; [lia | exact H]|].
    destruct r1 as [|b r2]; [discriminate H|]. cbn [String.length] in L.
    destruct (white2 (nat_of_ascii a) (nat_of_ascii b)); [apply IH; [lia | exact H]|].
    destruct r2 as [|c r3]; [discriminate H|]. cbn [String.length] in L.
    destruct (white3 (nat_of_ascii a) (nat_of_ascii b) (nat_of_ascii c));
      [apply IH; [lia | exact H] | discriminate H].
Qed.

Lemma trim_blank s : only_white_space s = true -> trim s = "".
Proof.
  intros H. unfold trim. rewrite (trimStart_blank (String.length s) s (le_n _) H).
  reflexivity.
Qed.

(** ** C6: the page grid is asked for, not checked *)




(** ** C7: the composite prompt *)

(** C7.  The request of [generatePageImage] carries one text, [fullPrompt].
    It states the number of panels and the reading order, names every
    character of the roster with its appearance, holds for every panel its
    number, visual prompt and action beat, in the order of the page, and
    fixes the ink-sketch style without colours or grey tones. *)
Theorem fullPrompt_contents :
  forall service page allCharacters w,
    trace (snd (generatePageImage service page allCharacters w)) =
      (trace w ++
       [EvRequest (GenAI.mkRequest "gemini-2.5-flash-image"
                     (GenAI.Parts [fullPrompt page allCharacters])
                     (GenAI.ImageConfig "3:4"));
        EvSettled (service (requests_issued (trace w))
                     (generatePageImage_request page allCharacters))])%list /\
    occurs_in ("GRID: " ++ nat_to_string (length (Page.scenes page))
               ++ " panels, reading strictly LEFT-TO-RIGHT, TOP-TO-BOTTOM (row by row).")
      (fullPrompt page allCharacters) /\
    (forall c, In c allCharacters ->
       occurs_in (Character.name c ++ ": " ++ Character.appearance c)
         (fullPrompt page allCharacters)) /\
    (forall s, In s (Page.scenes page) ->
       occurs_in ("Panel " ++ Z_to_string (Scene.sceneNumber s) ++ ": "
                  ++ Scene.visualPrompt s ++ ". Beat: " ++ Scene.action s)
         (fullPrompt page allCharacters)) /\
    occurs_in ("PANEL CONTENT: " ++ join ". " (map scenePrompt (Page.scenes page)) ++ ". ")
      (fullPrompt page allCharacters) /\
    occurs_in "STYLE: Rough director's ink sketch. Stark black lines on white paper. No colors, no gray tones. High technical contrast."
      (fullPrompt page allCharacters).
Proof.
  intros service page allCharacters w.
  split; [rewrite generatePageImage_run; reflexivity|].
  unfold fullPrompt.
  split; [|split; [|split; [|split]]].
  - do 4 apply occurs_in_after. exists "  ". eexists.
    simpl. rewrite !string_app_assoc. reflexivity.
  - intros c C. do 9 apply occurs_in_after. apply occurs_in_before.
    unfold characterContext.
    apply (occurs_in_join ". " (Character.name c ++ ": " ++ Character.appearance c)).
    apply (in_map (fun c => Character.name c ++ ": " ++ Character.appearance c)). exact C.
  - intros s S. do 13 apply occurs_in_after. apply occurs_in_before.
    unfold scenesPrompts.
    apply (occurs_in_join ". " (scenePrompt s)). apply in_map. exact S.
  - do 12 apply occurs_in_after. exists "  ". eexists.
    unfold scenesPrompts. simpl. rewrite !string_app_assoc. reflexivity.
  - do 16 apply occurs_in_after. exists "  ". eexists. simpl. reflexivity.
Qed.

Lemma fullPrompt_contents_witness :
  occurs_in "Visitor: Mannequin with hat"
    (fullPrompt (sample_page "p1" 1) [keeper; visitor]) /\
  occurs_in "Panel 2: Wide shot: A bottle glints on the rocks. Beat: A bottle glints on the rocks"
    (fullPrompt (sample_page "p1" 1) [keeper; visitor]) /\
  occurs_in "GRID: 2 panels, reading strictly LEFT-TO-RIGHT, TOP-TO-BOTTOM (row by row)."
    (fullPrompt (sample_page "p1" 1) [keeper; visitor]).
Proof.
  pose proof (fullPrompt_contents (answering text_only_response) (sample_page "p1" 1)
                [keeper; visitor] (start_world (showing sample_storyboard)))
    as (_ & G & C & S & _).
  split; [|split].
  - apply (C visitor). simpl. right. left. reflexivity.
  - apply (S (sample_scene "p1-s2" 2 "A bottle glints on the rocks")).
    simpl. right. left. reflexivity.
  - exact G.
Defined.

(** ** C9: a blank seed *)

(** C9.  With an input that is empty or white space only,
    [handleStartProduction] returns at its first line: the world is the
    one it started in, state and trace, so no cell has changed and no
    request has been issued. *)
Theorem blank_input_changes_nothing :
  forall service w,
    only_white_space (input (app w)) = true ->
    handleStartProduction service w = (Return tt, w) /\
    click service (handleStartProduction service) (mkWorld (app w) (trace w) [])
      = (Return tt, mkWorld (app w) (trace w) []).
Proof.
  intros service w H.
  assert (E : forall w', app w' = app w ->
                handleStartProduction service w' = (Return tt, w')).
  { intros w' A. unfold handleStartProduction, bind, captured. rewrite A.
    rewrite (trim_blank _ H). reflexivity. }
  split; [apply E; reflexivity|].
  unfold click. rewrite E; reflexivity.
Qed.

Lemma blank_input_changes_nothing_witness :
  handleStartProduction (answering (text_response one_panel_body))
    (start_world (typed blank_text Mode.creative))
  = (Return tt, start_world (typed blank_text Mode.creative)).
Proof.
  apply (blank_input_changes_nothing (answering (text_response one_panel_body))
           (start_world (typed blank_text Mode.creative))).
  reflexivity.
Defined.

(** ** C8: saving an edit *)

Lemma Forall2_map_same {A} (R : A -> A -> Prop) (f : A -> A) (l : list A) :
  (forall x, R x (f x)) -> Forall2 R l (map f l).
Proof. intros H. induction l; simpl; constructor; auto. Qed.

Lemma edit_scenes_edits sceneId text ss :
  Forall2 (scene_edited sceneId text) ss (edit_scenes sceneId text ss).
Proof.
  apply Forall2_map_same. intros s. unfold scene_edited.
  destruct (String.eqb_spec (Scene.id s) sceneId) as [E|NE]; simpl.
  - repeat split; auto. intros H. contradiction.
  - repeat split; auto.
Qed.

Lemma apply_EditAction_edits sceneId text d :
  exists d', apply_data (EditAction sceneId text) (Some d) = Some d' /\
             storyboard_edited sceneId text d d'.
Proof.
  eexists. split; [reflexivity|]. unfold storyboard_edited. simpl.
  repeat split.
  apply Forall2_map_same. intros p. unfold page_edited. simpl.
  repeat split. apply edit_scenes_edits.
Qed.

(** C8, counterexample.  The panel under edit has the empty string as
    identifier: [editingSceneId] is then falsy, [saveEdit] returns at its
    guard and the panel keeps its action. *)
Lemma empty_identifier_is_not_saved :
  data (app (snd (saveEdit
     (snd (set (SetEditBuffer "The keeper sleeps")
        (snd (startEditing unnamed_scene
           (start_world (showing unnamed_storyboard))))))))) = Some unnamed_storyboard /\
  ~ storyboard_edited "" "The keeper sleeps" unnamed_storyboard unnamed_storyboard /\
  ~ saved_edit_reaches_the_scene.
Proof.
  assert (N : ~ storyboard_edited "" "The keeper sleeps" unnamed_storyboard unnamed_storyboard).
  { intros (_ & _ & P). simpl in P. inversion P as [|? ? ? ? Q _]; subst.
    destruct Q as (_ & _ & _ & _ & _ & S). simpl in S.
    inversion S as [|? ? ? ? E _]; subst.
    destruct E as (_ & _ & _ & _ & _ & _ & _ & _ & A & _). simpl in A. discriminate A. }
  split; [reflexivity|]. split; [exact N|].
  intros claim.
  assert (X : exists p, In p (StoryboardData.pages unnamed_storyboard) /\
                        In unnamed_scene (Page.scenes p)).
  { exists (Page.mk "p1" 1 [unnamed_scene] None None "single panel").
    split; left; reflexivity. }
  destruct (claim (start_world (showing unnamed_storyboard)) unnamed_storyboard
              unnamed_scene eq_refl X _ "The keeper sleeps" _ eq_refl eq_refl)
    as (d' & D & E).
  simpl in D. inversion D; subst d'. exact (N E).
Qed.

(** C8, as the code has it.  While the storyboard is present and
    [editingSceneId] is a non-empty string, [saveEdit] replaces the action
    of the scenes with that identifier, on every page, by the edit buffer;
    every other scene, every other field of scene, page and storyboard, and
    every other state cell but [editingSceneId] (reset to null) stay as
    they are, and no request is issued.  With no storyboard, no scene under
    edit or the empty identifier, [saveEdit] changes nothing. *)
Theorem saveEdit_edits_the_named_scenes :
  forall w,
    (forall d sceneId,
       data (app w) = Some d -> editingSceneId (app w) = Some sceneId -> sceneId <> "" ->
       fst (saveEdit w) = Return tt /\
       trace (snd (saveEdit w)) =
         (trace w ++ [EvSet (SetData (EditAction sceneId (editBuffer (app w))));
                      EvSet (SetEditingSceneId None)])%list /\
       requests_issued (trace (snd (saveEdit w))) = requests_issued (trace w) /\
       editingSceneId (app (snd (saveEdit w))) = None /\
       same_but_data_and_edit (app w) (app (snd (saveEdit w))) /\
       exists d', data (app (snd (saveEdit w))) = Some d' /\
                  storyboard_edited sceneId (editBuffer (app w)) d d') /\
    (data (app w) = None \/ editingSceneId (app w) = None \/
     editingSceneId (app w) = Some "" ->
     saveEdit w = (Return tt, w)).
Proof.
  intros w. split.
  - intros d sceneId D E NE. unfold saveEdit, bind, captured. rewrite D, E.
    destruct sceneId as [|c sceneId]; [contradiction NE; reflexivity|].
    cbn [truthy negb]. unfold set. cbn [fst snd app trace background].
    split; [reflexivity|].
    split; [rewrite <- app_assoc; reflexivity|].
    split; [rewrite !requests_issued_app; simpl; lia|].
    split; [reflexivity|].
    split; [unfold same_but_data_and_edit; simpl; repeat split|].
    simpl. rewrite D.
    apply (apply_EditAction_edits (String c sceneId) (editBuffer (app w)) d).
  - unfold saveEdit, bind, captured.
    intros [D|[E|E]].
    + rewrite D. reflexivity.
    + rewrite E. destruct (data (app w)); reflexivity.
    + rewrite E. destruct (data (app w)); reflexivity.
Qed.

Lemma saveEdit_edits_the_named_scenes_witness :
  exists d',
    data (app (snd (saveEdit
       (snd (set (SetEditBuffer "First light")
          (snd (startEditing (sample_scene "s1" 1 "Dawn")
             (start_world (showing shared_scene_storyboard)))))))))
      = Some d' /\
    storyboard_edited "s1" "First light" shared_scene_storyboard d'.
Proof.
  exact (proj2 (proj2 (proj2 (proj2 (proj2
    (proj1 (saveEdit_edits_the_named_scenes
       (snd (set (SetEditBuffer "First light")
          (snd (startEditing (sample_scene "s1" 1 "Dawn")
             (start_world (showing shared_scene_storyboard)))))))
       shared_scene_storyboard "s1" eq_refl eq_refl
       ltac:(discriminate))))))).
Defined.

(** ** One page: [handleGeneratePage] *)

Lemma requests_issued_set t u :
  requests_issued (t ++ [EvSet u])%list = requests_issued t.
Proof. rewrite requests_issued_app. simpl. lia. Qed.

Lemma requests_issued_timeout t ms :
  requests_issued (t ++ [EvTimeout ms])%list = requests_issued t.
Proof. rewrite requests_issued_app. simpl. lia. Qed.

(** A page that is found: the mark, the request, its settlement. *)
Lemma handleGeneratePage_run service pageId d w target :
  find (fun p => String.eqb (Page.id p) pageId) (StoryboardData.pages d) = Some target ->
  handleGeneratePage service pageId (Some d) w =
  (Return tt,
   mkWorld
     (apply_update
        (SetData (settle_update pageId
                    (image_outcome service (requests_issued (trace w)) target
                       (StoryboardData.characters d))))
        (apply_update (SetData (MarkGenerating pageId)) (app w)))
     (trace w ++
      [EvSet (SetData (MarkGenerating pageId));
       EvRequest (generatePageImage_request target (StoryboardData.characters d));
       EvSettled (service (requests_issued (trace w))
                    (generatePageImage_request target (StoryboardData.characters d)))]
      ++ settle_events pageId
           (image_outcome service (requests_issued (trace w)) target
              (StoryboardData.characters d)))%list
     (background w)).
Proof.
  intros F.
  unfold handleGeneratePage, bind, captured, try_catch. cbn [set fst snd].
  rewrite F. unfold bind. rewrite generatePageImage_run.
  cbn [trace app background log]. rewrite requests_issued_set.
  pose proof (image_outcome_is_modelled service (requests_issued (trace w)) target
                (StoryboardData.characters d)) as M.
  destruct (image_outcome service (requests_issued (trace w)) target
              (StoryboardData.characters d)) as [url|e|]; [| |contradiction M; reflexivity].
  - unfold set. cbn [trace app background log settle_update settle_events].
    rewrite <- !app_assoc. reflexivity.
  - unfold console_error, set, log. cbn [trace app background settle_update settle_events].
    rewrite <- !app_assoc. reflexivity.
Qed.

(** ** C4: where failures go *)


Lemma handleStartProduction_failure service w request e :
  truthy (trim (input (app w))) = true ->
  request = match mode (app w) with
            | Mode.creative =>
                developStoryConcept_request (input (app w)) (totalPanels (app w))
            | Mode.quick =>
                generateStoryboardFromText_request (input (app w)) (numPages (app w))
                  (numPanelsPerPage (app w))
            end ->
  text_outcome service (requests_issued (trace w)) request = Throw e ->
  handleStartProduction service w =
  (Return tt,
   mkWorld
     (apply_update (SetLoading false)
        (apply_update
           (SetError (Some (or_default (Some (message e))
                              "Production failed. Please refine your vision.")))
           (apply_update (SetError None) (apply_update (SetLoading true) (app w)))))
     (trace w ++
      [EvSet (SetLoading true); EvSet (SetError None); EvRequest request;
       EvSettled (service (requests_issued (trace w)) request);
       EvSet (SetError (Some (or_default (Some (message e))
                                "Production failed. Please refine your vision.")));
       EvSet (SetLoading false)])%list
     (background w)).
Proof.
  intros T R O.
  unfold handleStartProduction, bind, captured. rewrite T. cbn [negb set fst snd].
  unfold try_finally, try_catch, bind. cbn [app trace background].
  destruct (mode (app w)) eqn:Mo; cbn [mode apply_update input numPages numPanelsPerPage totalPanels].
  - rewrite generateStoryboardFromText_run.
    cbn [trace app background log]. rewrite !requests_issued_set.
    subst request. rewrite O. unfold set. cbn [trace app background log].
    rewrite <- !app_assoc. reflexivity.
  - unfold totalPanels. cbn [numPages numPanelsPerPage apply_update].
    rewrite developStoryConcept_run.
    cbn [trace app background log]. rewrite !requests_issued_set.
    subst request. unfold totalPanels in O. rewrite O. unfold set.
    cbn [trace app background log].
    rewrite <- !app_assoc. reflexivity.
Qed.

Lemma handleBuildManga_failure service w story e :
  developedStory (app w) = Some story ->
  json_falsy story = false ->
  text_outcome service (requests_issued (trace w))
    (generateStoryboardFromText_request (template_member "screenplay" story)
       (numPages (app w)) (numPanelsPerPage (app w))) = Throw e ->
  handleBuildManga service w =
  (Return tt,
   mkWorld
     (apply_update (SetLoading false)
        (apply_update
           (SetError (Some (or_default (Some (message e))
                              "Critical logic error in sequence generation.")))
           (apply_update (SetError None) (apply_update (SetLoading true) (app w)))))
     (trace w ++
      [EvSet (SetLoading true); EvSet (SetError None);
       EvRequest (generateStoryboardFromText_request (template_member "screenplay" story)
                    (numPages (app w)) (numPanelsPerPage (app w)));
       EvSettled (service (requests_issued (trace w))
                    (generateStoryboardFromText_request
                       (template_member "screenplay" story)
                       (numPages (app w)) (numPanelsPerPage (app w))));
       EvSet (SetError (Some (or_default (Some (message e))
                                "Critical logic error in sequence generation.")));
       EvSet (SetLoading false)])%list
     (background w)).
Proof.
  intros S F O.
  unfold handleBuildManga, bind, captured. rewrite S, F. cbn [set fst snd].
  unfold try_finally, try_catch, bind. cbn [app trace background].
  rewrite generateStoryboardFromText_run.
  cbn [trace app background log]. rewrite !requests_issued_set.
  rewrite O. unfold set. cbn [trace app background log].
  rewrite <- !app_assoc. reflexivity.
Qed.



(** ** The illustration loop *)

Lemma replay_app t u st : replay (t ++ u)%list st = replay u (replay t st).
Proof.
  revert st. induction t as [|e t IH]; intros st; simpl; [reflexivity|].
  destruct e; apply IH.
Qed.

Lemma find_own_page (ps : list Page.t) p :
  NoDup (map Page.id ps) -> In p ps ->
  find (fun q => String.eqb (Page.id q) (Page.id p)) ps = Some p.
Proof.
  induction ps as [|q ps IH]; intros N I; [destruct I|].
  simpl in N. inversion N as [|? ? NI N']; subst.
  simpl. destruct I as [->|I].
  - rewrite String.eqb_refl. reflexivity.
  - destruct (String.eqb_spec (Page.id q) (Page.id p)) as [E|NE].
    + exfalso. apply NI. rewrite E. apply in_map. exact I.
    + apply IH; assumption.
Qed.

Lemma find_some_page (ps : list Page.t) pageId :
  In pageId (map Page.id ps) ->
  exists target, find (fun p => String.eqb (Page.id p) pageId) ps = Some target.
Proof.
  induction ps as [|q ps IH]; intros I; [destruct I|].
  simpl. destruct (String.eqb_spec (Page.id q) pageId) as [E|NE].
  - exists q. reflexivity.
  - destruct I as [I|I]; [contradiction|]. apply IH. exact I.
Qed.


Lemma replay_page_events service k d pageId target st :
  replay
    ([EvTimeout 100;
      EvSet (SetData (MarkGenerating pageId));
      EvRequest (generatePageImage_request target (StoryboardData.characters d));
      EvSettled (service k (generatePageImage_request target
                              (StoryboardData.characters d)))]
     ++ settle_events pageId (image_outcome service k target (StoryboardData.characters d)))
    st =
  apply_update
    (SetData (settle_update pageId
                (image_outcome service k target (StoryboardData.characters d))))
    (apply_update (SetData (MarkGenerating pageId)) st).
Proof.
  pose proof (image_outcome_is_modelled service k target (StoryboardData.characters d))
    as M.
  destruct (image_outcome _ _ _ _);
    [reflexivity | reflexivity | contradiction M; reflexivity].
Qed.

(** The loop over pages of the storyboard: trace and state. *)
Lemma render_pages_events service d ps :
  (forall p, In p ps -> In (Page.id p) (map Page.id (StoryboardData.pages d))) ->
  forall w,
    render_pages service ps d w =
    (Return tt,
     mkWorld (replay (loop_events service (requests_issued (trace w)) d ps) (app w))
       (trace w ++ loop_events service (requests_issued (trace w)) d ps)%list
       (background w)).
Proof.
  induction ps as [|p ps IH]; intros F w.
  - simpl. unfold ret. rewrite app_nil_r. destruct w; reflexivity.
  - destruct (find_some_page _ _ (F p (or_introl eq_refl))) as (target & T).
    assert (E : target_of d p = target) by (unfold target_of; rewrite T; reflexivity).
    cbn [render_pages]. unfold bind at 1. unfold timeout at 1.
    unfold bind at 1.
    rewrite (handleGeneratePage_run service (Page.id p) d (log [EvTimeout 100] w) target T).
    rewrite IH by (intros q Q; apply F; right; exact Q).
    cbn [trace app background log]. rewrite requests_issued_timeout.
    assert (K : requests_issued
                  ((trace w ++ [EvTimeout 100]) ++
                   [EvSet (SetData (MarkGenerating (Page.id p)));
                    EvRequest (generatePageImage_request target
                                 (StoryboardData.characters d));
                    EvSettled (service (requests_issued (trace w))
                       (generatePageImage_request target (StoryboardData.characters d)))] ++
                   settle_events (Page.id p)
                     (image_outcome service (requests_issued (trace w)) target
                        (StoryboardData.characters d)))%list
                = S (requests_issued (trace w))).
    { rewrite !requests_issued_app. simpl.
      destruct (image_outcome _ _ _ _); simpl; lia. }
    rewrite K. cbn [loop_events]. rewrite E. f_equal. f_equal.
    + rewrite replay_app, replay_page_events. reflexivity.
    + rewrite <- !app_assoc. reflexivity.
Qed.

(** Where [find] maps every page to itself, the loop follows [schedule]. *)
Lemma loop_events_schedule service d ps : forall k,
  (forall p, In p ps ->
     find (fun q => String.eqb (Page.id q) (Page.id p)) (StoryboardData.pages d) = Some p) ->
  loop_events service k d ps = schedule service k d ps.
Proof.
  induction ps as [|p ps IH]; intros k F; [reflexivity|].
  cbn [loop_events schedule]. unfold page_schedule, target_of.
  rewrite (F p (or_introl eq_refl)).
  rewrite IH by (intros q Q; apply F; right; exact Q). reflexivity.
Qed.

Lemma render_pages_run service d ps :
  (forall p, In p ps ->
     find (fun q => String.eqb (Page.id q) (Page.id p)) (StoryboardData.pages d) = Some p) ->
  forall w,
    render_pages service ps d w =
    (Return tt,
     mkWorld (replay (schedule service (requests_issued (trace w)) d ps) (app w))
       (trace w ++ schedule service (requests_issued (trace w)) d ps)%list
       (background w)).
Proof.
  intros F w. rewrite <- (loop_events_schedule service d ps _ F).
  apply render_pages_events. intros p P.
  destruct (find_some _ _ (F p P)) as [I _]. apply in_map_iff.
  destruct (find_some _ _ (F p P)) as [_ E]. exists p. split; [reflexivity | exact I].
Qed.





Lemma requests_issued_schedule service d ps : forall k,
  requests_issued (schedule service k d ps) = length ps.
Proof.
  induction ps as [|p ps IH]; intros k; cbn [schedule]; [reflexivity|].
  rewrite requests_issued_app, IH. unfold page_schedule.
  pose proof (image_outcome_is_modelled service k p (StoryboardData.characters d)) as M.
  destruct (image_outcome _ _ _ _); simpl; lia.
Qed.

Lemma renderAllPagesSequentially_run service d w :
  NoDup (map Page.id (StoryboardData.pages d)) ->
  renderAllPagesSequentially service d w =
  (Return tt,
   mkWorld
     (replay (schedule service (requests_issued (trace w)) d (StoryboardData.pages d))
        (app w))
     (trace w ++ schedule service (requests_issued (trace w)) d (StoryboardData.pages d))%list
     (background w)).
Proof.
  intros N. unfold renderAllPagesSequentially.
  apply render_pages_run. intros p P. apply find_own_page; assumption.
Qed.



(** ** C3: one page fails, the others go on *)

Lemma map_page_miss pageId f ps :
  ~ In pageId (map Page.id ps) -> map_page pageId f ps = ps.
Proof.
  induction ps as [|p ps IH]; simpl; intros N; [reflexivity|].
  destruct (String.eqb_spec (Page.id p) pageId) as [E|NE].
  - exfalso. apply N. left. exact E.
  - f_equal. apply IH. intros I. apply N. right. exact I.
Qed.


Lemma settle_page_id o p : Page.id (settle_page o p) = Page.id p.
Proof. destruct o; reflexivity. Qed.



Lemma finalize_length service k cs ps : length (finalize service k cs ps) = length ps.
Proof. revert k. induction ps as [|p ps IH]; intros k; simpl; [reflexivity | rewrite IH; reflexivity]. Qed.


(** Mark and settlement together, on every page of that identifier. *)
Lemma settle_marked_pages pageId o dc :
  apply_data (settle_update pageId o) (apply_data (MarkGenerating pageId) (Some dc))
  = Some (StoryboardData.with_pages
            (map_page pageId (settle_page o) (StoryboardData.pages dc)) dc).
Proof.
  assert (H : forall g, map_page pageId g
                          (map_page pageId (Page.with_isGenerating true)
                             (StoryboardData.pages dc))
                        = map_page pageId
                            (fun p => g (Page.with_isGenerating true p))
                            (StoryboardData.pages dc)).
  { intros g. unfold map_page. rewrite map_map. apply map_ext. intros p.
    destruct (String.eqb (Page.id p) pageId) eqn:E; [|rewrite E; reflexivity].
    cbn [Page.with_isGenerating Page.id]. rewrite E. reflexivity. }
  destruct o as [url|e|]; cbn [apply_data settle_update settle_page
                                StoryboardData.with_pages StoryboardData.pages
                                StoryboardData.title StoryboardData.characters];
    rewrite H; reflexivity.
Qed.

Lemma settled_step ids pageId o l0 l :
  Forall2 (settled ids) l0 l ->
  Forall2 (settled (pageId :: ids)) l0 (map_page pageId (settle_page o) l).
Proof.
  induction 1 as [|q q' l0 l [I F] _ IH]; simpl; constructor; [|exact IH].
  destruct (String.eqb_spec (Page.id q') pageId) as [E|NE].
  - split; [rewrite settle_page_id; exact I|]. intros _. destruct o; reflexivity.
  - split; [exact I|]. intros [X|X]; [congruence | apply F, X].
Qed.

(** The loop without any assumption on the identifiers: it ends normally
    after one request per page, and the pages it went over are no longer
    in progress. *)
Lemma render_pages_clears_flags service d ps : forall ids w dc,
  (forall p, In p ps -> In (Page.id p) (map Page.id (StoryboardData.pages d))) ->
  data (app w) = Some dc ->
  Forall2 (settled ids) (StoryboardData.pages d) (StoryboardData.pages dc) ->
  exists dc',
    fst (render_pages service ps d w) = Return tt /\
    requests_issued (trace (snd (render_pages service ps d w)))
      = requests_issued (trace w) + length ps /\
    data (app (snd (render_pages service ps d w))) = Some dc' /\
    Forall2 (settled (rev (map Page.id ps) ++ ids)%list)
      (StoryboardData.pages d) (StoryboardData.pages dc').
Proof.
  induction ps as [|p ps IH]; intros ids w dc Sub D F.
  - exists dc. simpl. repeat split; auto.
  - destruct (find_some_page _ _ (Sub p (or_introl eq_refl))) as (target & T).
    set (o := image_outcome service (requests_issued (trace w)) target
                (StoryboardData.characters d)).
    set (w1 := mkWorld
                 (apply_update (SetData (settle_update (Page.id p) o))
                    (apply_update (SetData (MarkGenerating (Page.id p))) (app w)))
                 ((trace w ++ [EvTimeout 100]) ++
                  [EvSet (SetData (MarkGenerating (Page.id p)));
                   EvRequest (generatePageImage_request target
                                (StoryboardData.characters d));
                   EvSettled (service (requests_issued (trace w))
                                (generatePageImage_request target
                                   (StoryboardData.characters d)))] ++
                  settle_events (Page.id p) o)%list
                 (background w)).
    assert (E : render_pages service (p :: ps) d w = render_pages service ps d w1).
    { cbn [render_pages]. unfold bind at 1. unfold timeout at 1. unfold bind at 1.
      rewrite (handleGeneratePage_run service (Page.id p) d (log [EvTimeout 100] w)
                 target T).
      cbn [trace app background log]. rewrite requests_issued_timeout. reflexivity. }
    rewrite E.
    destruct (IH (Page.id p :: ids) w1
                (StoryboardData.with_pages
                   (map_page (Page.id p) (settle_page o) (StoryboardData.pages dc)) dc))
      as (dc' & R & Q & D' & F').
    + intros q Q. apply Sub. right. exact Q.
    + unfold w1. cbn [app apply_update data]. rewrite D. apply settle_marked_pages.
    + cbn [StoryboardData.with_pages StoryboardData.pages]. apply settled_step. exact F.
    + exists dc'. split; [exact R|]. split; [|split; [exact D'|]].
      * rewrite Q. unfold w1. cbn [trace]. rewrite !requests_issued_app. cbn [length].
        assert (Z : requests_issued (settle_events (Page.id p) o) = 0)
          by (destruct o; reflexivity).
        rewrite Z. cbn [requests_issued]. lia.
      * cbn [map rev]. rewrite <- app_assoc. exact F'.
Qed.

Lemma settled_refl l : Forall2 (settled []) l l.
Proof.
  induction l as [|q l IH]; constructor; [|exact IH].
  split; [reflexivity | intros []].
Qed.

Lemma settled_all ids l l' :
  Forall2 (settled ids) l l' ->
  (forall q, In q l -> In (Page.id q) ids) ->
  map Page.id l' = map Page.id l /\
  Forall (fun q' => Page.isGenerating q' = Some false) l'.
Proof.
  induction 1 as [|q q' l l' [I F] _ IH]; intros A; [split; constructor|].
  destruct IH as [M G]; [intros x X; apply A; right; exact X|].
  split.
  - simpl. rewrite I, M. reflexivity.
  - constructor; [apply F, A; left; reflexivity | exact G].
Qed.



(** ** From the start of production to the loop *)

Lemma handleStartProduction_quick service w j d :
  truthy (trim (input (app w))) = true ->
  mode (app w) = Mode.quick ->
  text_outcome service (requests_issued (trace w))
    (generateStoryboardFromText_request (input (app w)) (numPages (app w))
       (numPanelsPerPage (app w))) = Return j ->
  as_StoryboardData j = Some d ->
  handleStartProduction service w =
  (Return tt,
   mkWorld
     (apply_update (SetLoading false)
        (apply_update (SetStep AppStep.storyboard)
           (apply_update (SetData (Replace (Some d)))
              (apply_update (SetError None) (apply_update (SetLoading true) (app w))))))
     (trace w ++
      [EvSet (SetLoading true); EvSet (SetError None);
       EvRequest (generateStoryboardFromText_request (input (app w)) (numPages (app w))
                    (numPanelsPerPage (app w)));
       EvSettled (service (requests_issued (trace w))
                    (generateStoryboardFromText_request (input (app w)) (numPages (app w))
                       (numPanelsPerPage (app w))));
       EvSet (SetData (Replace (Some d))); EvSet (SetStep AppStep.storyboard);
       EvSet (SetLoading false)])%list
     (background w ++ [d])%list).
Proof.
  intros T Mo O D.
  unfold handleStartProduction, bind, captured. rewrite T. cbn [negb set fst snd].
  unfold try_finally, try_catch, bind. cbn [app trace background].
  rewrite Mo. cbn [mode apply_update input numPages numPanelsPerPage].
  rewrite generateStoryboardFromText_run.
  cbn [trace app background log]. rewrite !requests_issued_set.
  rewrite O. unfold cast. rewrite D. unfold set, spawn. cbn [trace app background log].
  rewrite <- !app_assoc. reflexivity.
Qed.

(** One click in quick mode: the storyboard is stored and shown, loading
    ends, and then the loop runs over its pages. *)
Lemma quick_start_then_loop service w j d :
  truthy (trim (input (app w))) = true ->
  mode (app w) = Mode.quick ->
  background w = [] ->
  text_outcome service (requests_issued (trace w))
    (generateStoryboardFromText_request (input (app w)) (numPages (app w))
       (numPanelsPerPage (app w))) = Return j ->
  as_StoryboardData j = Some d ->
  NoDup (map Page.id (StoryboardData.pages d)) ->
  fst (click service (handleStartProduction service) w) = Return tt /\
  trace (snd (click service (handleStartProduction service) w)) =
    (trace w ++
     [EvSet (SetLoading true); EvSet (SetError None);
      EvRequest (generateStoryboardFromText_request (input (app w)) (numPages (app w))
                   (numPanelsPerPage (app w)));
      EvSettled (service (requests_issued (trace w))
                   (generateStoryboardFromText_request (input (app w)) (numPages (app w))
                      (numPanelsPerPage (app w))));
      EvSet (SetData (Replace (Some d))); EvSet (SetStep AppStep.storyboard);
      EvSet (SetLoading false)]
     ++ schedule service (S (requests_issued (trace w))) d (StoryboardData.pages d))%list.
Proof.
  intros T Mo B O D N. unfold click.
  rewrite (handleStartProduction_quick service w j d T Mo O D).
  cbn [background app trace]. rewrite B. cbn [List.app render_each].
  unfold bind. rewrite (renderAllPagesSequentially_run service d _ N).
  cbn [ret fst snd trace].
  rewrite requests_issued_app. cbn [requests_issued]. rewrite Nat.add_comm.
  split; [reflexivity|]. cbn [Nat.add]. rewrite <- app_assoc. reflexivity.
Qed.

(** * More of the orchestrator

    ** Starting a production *)

Lemma handleStartProduction_creative service w j :
  truthy (trim (input (app w))) = true ->
  mode (app w) = Mode.creative ->
  text_outcome service (requests_issued (trace w))
    (developStoryConcept_request (input (app w)) (totalPanels (app w))) = Return j ->
  handleStartProduction service w =
  (Return tt,
   mkWorld
     (apply_update (SetLoading false)
        (apply_update (SetStep AppStep.development)
           (apply_update (SetDevelopedStory (Some j))
              (apply_update (SetError None) (apply_update (SetLoading true) (app w))))))
     (trace w ++
      [EvSet (SetLoading true); EvSet (SetError None);
       EvRequest (developStoryConcept_request (input (app w)) (totalPanels (app w)));
       EvSettled (service (requests_issued (trace w))
                    (developStoryConcept_request (input (app w)) (totalPanels (app w))));
       EvSet (SetDevelopedStory (Some j)); EvSet (SetStep AppStep.development);
       EvSet (SetLoading false)])%list
     (background w)).
Proof.
  intros T Mo O.
  unfold handleStartProduction, bind, captured. rewrite T. cbn [negb set fst snd].
  unfold try_finally, try_catch, bind. cbn [app trace background].
  rewrite Mo. unfold totalPanels in *. cbn [mode apply_update input numPages numPanelsPerPage].
  rewrite developStoryConcept_run.
  cbn [trace app background log]. rewrite !requests_issued_set.
  rewrite O. unfold set. cbn [trace app background log].
  rewrite <- !app_assoc. reflexivity.
Qed.

(** X1.  In creative mode, with a seed that is not blank and a response
    whose text parses, [handleStartProduction] stores the parsed value as
    the developed story and moves to the development step: loading is
    over, the error of an earlier attempt is gone, the storyboard is not
    touched, one request has been issued and no illustration is started. *)
Theorem creative_start_stores_the_story :
  forall service w j,
    truthy (trim (input (app w))) = true ->
    mode (app w) = Mode.creative ->
    text_outcome service (requests_issued (trace w))
      (developStoryConcept_request (input (app w)) (totalPanels (app w))) = Return j ->
    fst (handleStartProduction service w) = Return tt /\
    developedStory (app (snd (handleStartProduction service w))) = Some j /\
    step (app (snd (handleStartProduction service w))) = AppStep.development /\
    loading (app (snd (handleStartProduction service w))) = false /\
    error (app (snd (handleStartProduction service w))) = None /\
    data (app (snd (handleStartProduction service w))) = data (app w) /\
    requests_issued (trace (snd (handleStartProduction service w)))
      = S (requests_issued (trace w)) /\
    background (snd (handleStartProduction service w)) = background w.
Proof.
  intros service w j T Mo O.
  rewrite (handleStartProduction_creative service w j T Mo O).
  cbn [fst snd app trace background]. repeat split.
  rewrite requests_issued_app. simpl. lia.
Qed.

Lemma creative_start_stores_the_story_witness :
  developedStory
    (app (snd (handleStartProduction (answering (text_response "{}"))
                 (start_world (typed "A lighthouse keeper" Mode.creative)))))
  = Some (JObject []).
Proof.
  exact (proj1 (proj2 (creative_start_stores_the_story (answering (text_response "{}"))
           (start_world (typed "A lighthouse keeper" Mode.creative)) (JObject [])
           eq_refl eq_refl eq_refl))).
Defined.



(** X3.  A response whose text parses to a falsy value ([null], [false],
    [0] or the empty string) ends a creative start in the development step
    with no section to render, and [handleBuildManga] then returns at its
    guard: nothing on the screen leads on. *)
Theorem falsy_story_leaves_no_screen :
  forall service w j,
    truthy (trim (input (app w))) = true ->
    mode (app w) = Mode.creative ->
    text_outcome service (requests_issued (trace w))
      (developStoryConcept_request (input (app w)) (totalPanels (app w))) = Return j ->
    json_falsy j = true ->
    screen (app (snd (handleStartProduction service w))) = NoScreen /\
    handleBuildManga service (snd (handleStartProduction service w))
    = (Return tt, snd (handleStartProduction service w)).
Proof.
  intros service w j T Mo O F.
  rewrite (handleStartProduction_creative service w j T Mo O). cbn [snd].
  split.
  - unfold screen. cbn [app apply_update step developedStory]. rewrite F. reflexivity.
  - unfold handleBuildManga, bind, captured. cbn [app apply_update developedStory].
    rewrite F. reflexivity.
Qed.

Lemma falsy_story_leaves_no_screen_witness :
  screen (app (snd (handleStartProduction (answering (text_response "null"))
                      (start_world (typed "A lighthouse keeper" Mode.creative)))))
  = NoScreen.
Proof.
  exact (proj1 (falsy_story_leaves_no_screen (answering (text_response "null"))
                  (start_world (typed "A lighthouse keeper" Mode.creative)) JNull
                  eq_refl eq_refl eq_refl eq_refl)).
Defined.

(** X4.  The request of a creative start goes to "gemini-3-pro-preview",
    asks for JSON with [story] and [screenplay] required, names
    [numPages * numPanelsPerPage] as the exact number of beats, and ends
    with the seed as it was typed, white space included. *)
Theorem creative_start_request :
  forall service w,
    truthy (trim (input (app w))) = true ->
    mode (app w) = Mode.creative ->
    exists prompt before rest,
      trace (snd (handleStartProduction service w)) =
        (trace w ++
         [EvSet (SetLoading true); EvSet (SetError None);
          EvRequest (GenAI.mkRequest "gemini-3-pro-preview" (GenAI.Text prompt)
                       (GenAI.JsonConfig "application/json"
                          (GenAI.OBJECT
                             [("story", GenAI.STRING None);
                              ("screenplay",
                               GenAI.STRING (Some "The sequential screenplay beats."))]
                             ["story"; "screenplay"])))] ++ rest)%list /\
      occurs_in ("containing exactly "
                 ++ Z_to_string (numPages (app w) * numPanelsPerPage (app w))
                 ++ " distinct, sequential beats.") prompt /\
      prompt = before ++ "SEED IDEA:" ++ LF ++ "    " ++ input (app w).
Proof.
  intros service w T Mo.
  assert (Tr : exists rest,
            trace (snd (handleStartProduction service w)) =
              (trace w ++
               [EvSet (SetLoading true); EvSet (SetError None);
                EvRequest (developStoryConcept_request (input (app w))
                             (totalPanels (app w)))] ++ rest)%list).
  { destruct (text_outcome service (requests_issued (trace w))
                (developStoryConcept_request (input (app w)) (totalPanels (app w))))
      as [j|e|] eqn:O.
    - rewrite (handleStartProduction_creative service w j T Mo O).
      eexists. reflexivity.
    - rewrite (handleStartProduction_failure service w _ e T eq_refl)
        by (rewrite Mo; exact O).
      rewrite Mo. eexists. reflexivity.
    - exfalso. exact (text_outcome_is_modelled _ _ _ O). }
  destruct Tr as (rest & Tr).
  exists (developStoryConcept_prompt (input (app w)) (totalPanels (app w))).
  exists ("You are a world-class cinematic director and screenplay logic engine. "
    ++ LF ++ "    TASK:" ++ LF
    ++ "    1. Expand the SEED IDEA into a compelling narrative summary." ++ LF
    ++ "    2. Write an EXHAUSTIVE SCREENPLAY containing exactly "
    ++ Z_to_string (totalPanels (app w)) ++ " distinct, sequential beats. " ++ LF
    ++ "       CRITICAL: Each beat must be a specific visual action or camera moment. "
    ++ LF
    ++ "       The flow must be perfectly natural with no gaps in time or logic. " ++ LF
    ++ "       Keep actions simple but descriptive enough for visual drafting." ++ LF
    ++ "    " ++ LF ++ "    ").
  exists rest. split; [exact Tr|]. split.
  - unfold developStoryConcept_prompt, totalPanels.
    do 6 apply occurs_in_after.
    exists "    2. Write an EXHAUSTIVE SCREENPLAY ". eexists.
    simpl. rewrite !string_app_assoc. reflexivity.
  - unfold developStoryConcept_prompt. rewrite !string_app_assoc. reflexivity.
Qed.

Lemma creative_start_request_witness :
  exists prompt before rest,
    trace (snd (handleStartProduction (rejecting (Error "Network down"))
                  (start_world (typed "  A lighthouse keeper " Mode.creative)))) =
      ([] ++
       [EvSet (SetLoading true); EvSet (SetError None);
        EvRequest (GenAI.mkRequest "gemini-3-pro-preview" (GenAI.Text prompt)
                     (GenAI.JsonConfig "application/json"
                        (GenAI.OBJECT
                           [("story", GenAI.STRING None);
                            ("screenplay",
                             GenAI.STRING (Some "The sequential screenplay beats."))]
                           ["story"; "screenplay"])))] ++ rest)%list /\
    occurs_in ("containing exactly " ++ Z_to_string (5 * 10)
               ++ " distinct, sequential beats.") prompt /\
    prompt = before ++ "SEED IDEA:" ++ LF ++ "    " ++ "  A lighthouse keeper ".
Proof.
  exact (creative_start_request (rejecting (Error "Network down"))
           (start_world (typed "  A lighthouse keeper " Mode.creative)) eq_refl eq_refl).
Defined.

(** ** Building the storyboard from the developed story *)





(** ** One page on request *)

Lemma handleGeneratePage_of_state service pageId d w :
  data (app w) = Some d ->
  handleGeneratePage service pageId None w = handleGeneratePage service pageId (Some d) w.
Proof.
  intros D. unfold handleGeneratePage, bind, captured. rewrite D. reflexivity.
Qed.

Lemma settle_page_after pageId o q :
  page_after pageId o q
    (if String.eqb (Page.id q) pageId then settle_page o q else q).
Proof.
  unfold page_after, same_content.
  destruct (String.eqb_spec (Page.id q) pageId) as [E|NE].
  - destruct o; cbn; repeat split; auto; intros; contradiction.
  - repeat split; auto; intros; contradiction.
Qed.

(** X6.  A request for a page of the storyboard in the state, made from
    the page's buttons, issues one request built from the first page with
    that identifier and never throws.  Afterwards the pages with that
    identifier are not in progress and carry the returned image, or, when
    the call failed, the image they had; pages with another identifier,
    the texts of every page, title and roster, and every state cell but
    the data are as before. *)
Theorem page_request_effect :
  forall service pageId d w target,
    data (app w) = Some d ->
    find (fun p => String.eqb (Page.id p) pageId) (StoryboardData.pages d) = Some target ->
    fst (handleGeneratePage service pageId None w) = Return tt /\
    requests_issued (trace (snd (handleGeneratePage service pageId None w)))
      = S (requests_issued (trace w)) /\
    In (EvRequest (generatePageImage_request target (StoryboardData.characters d)))
       (trace (snd (handleGeneratePage service pageId None w))) /\
    same_but_data (app w) (app (snd (handleGeneratePage service pageId None w))) /\
    exists d',
      data (app (snd (handleGeneratePage service pageId None w))) = Some d' /\
      StoryboardData.title d' = StoryboardData.title d /\
      StoryboardData.characters d' = StoryboardData.characters d /\
      Forall2 (page_after pageId
                 (image_outcome service (requests_issued (trace w)) target
                    (StoryboardData.characters d)))
        (StoryboardData.pages d) (StoryboardData.pages d').
Proof.
  intros service pageId d w target D F.
  rewrite (handleGeneratePage_of_state service pageId d w D).
  rewrite (handleGeneratePage_run service pageId d w target F).
  cbn [fst snd trace app].
  split; [reflexivity|]. split.
  { rewrite !requests_issued_app. cbn [requests_issued].
    destruct (image_outcome _ _ _ _); simpl; lia. }
  split.
  { apply in_or_app. right. apply in_or_app. left. simpl. right. left. reflexivity. }
  split; [unfold same_but_data; cbn; repeat split|].
  cbn [apply_update data]. rewrite D, settle_marked_pages.
  eexists. split; [reflexivity|]. cbn [StoryboardData.with_pages StoryboardData.title
    StoryboardData.characters StoryboardData.pages].
  split; [reflexivity|]. split; [reflexivity|].
  unfold map_page. apply Forall2_map_same. intros q. apply settle_page_after.
Qed.

Lemma page_request_effect_witness :
  exists d',
    data (app (snd (handleGeneratePage (rejecting (Error "quota exceeded")) "p1" None
                      (start_world (showing illustrated_storyboard))))) = Some d' /\
    Forall2 (page_after "p1" (Throw (Error "quota exceeded")))
      (StoryboardData.pages illustrated_storyboard) (StoryboardData.pages d').
Proof.
  destruct (page_request_effect (rejecting (Error "quota exceeded")) "p1"
              illustrated_storyboard (start_world (showing illustrated_storyboard))
              (Page.mk "p1" 1 [sample_scene "s1" 1 "Dawn"]
                 (Some "data:image/png;base64,AAAA") (Some false) "single panel")
              eq_refl eq_refl) as (_ & _ & _ & _ & d' & D & _ & _ & P).
  exists d'. split; [exact D | exact P].
Defined.

Lemma with_pages_same d : StoryboardData.with_pages (StoryboardData.pages d) d = d.
Proof. destruct d; reflexivity. Qed.

(** X7.  A request for an identifier that no page of the storyboard has
    issues no request and logs nothing: the state is the one before.
    Without a storyboard the handler returns at once. *)
Theorem unknown_page_is_ignored :
  forall service pageId w,
    (forall d,
       data (app w) = Some d ->
       ~ In pageId (map Page.id (StoryboardData.pages d)) ->
       fst (handleGeneratePage service pageId None w) = Return tt /\
       app (snd (handleGeneratePage service pageId None w)) = app w /\
       trace (snd (handleGeneratePage service pageId None w))
         = (trace w ++ [EvSet (SetData (MarkGenerating pageId))])%list) /\
    (data (app w) = None ->
     handleGeneratePage service pageId None w = (Return tt, w)).
Proof.
  intros service pageId w. split.
  - intros d D N.
    assert (F : find (fun p => String.eqb (Page.id p) pageId) (StoryboardData.pages d)
                = None).
    { destruct (find _ _) as [t|] eqn:E; [|reflexivity].
      apply find_some in E. destruct E as [I E]. apply String.eqb_eq in E.
      exfalso. apply N. rewrite <- E. apply in_map. exact I. }
    unfold handleGeneratePage, bind, captured, try_catch. rewrite D.
    cbn [set fst snd]. rewrite F. cbn [ret fst snd app trace].
    split; [reflexivity|]. split; [|reflexivity].
    destruct (app w) as [s m i l ds dt er np npp z es eb]. cbn in D. subst dt.
    cbn [apply_update apply_data]. cbn.
    rewrite (map_page_miss _ _ _ N), with_pages_same. reflexivity.
  - intros D. unfold handleGeneratePage, bind, captured. rewrite D. reflexivity.
Qed.

Lemma unknown_page_is_ignored_witness :
  app (snd (handleGeneratePage second_request_fails "p9" None
              (start_world (showing sample_storyboard))))
  = showing sample_storyboard.
Proof.
  refine (proj1 (proj2 (proj1 (unknown_page_is_ignored second_request_fails "p9"
            (start_world (showing sample_storyboard))) sample_storyboard eq_refl _))).
  simpl. intuition discriminate.
Defined.

(** ** Edits *)

Lemma set_run u w :
  set u w = (Return tt, mkWorld (apply_update u (app w)) (trace w ++ [EvSet u])%list
                          (background w)).
Proof. reflexivity. Qed.

Lemma saveEdit_run w d sceneId :
  data (app w) = Some d ->
  editingSceneId (app w) = Some sceneId ->
  sceneId <> "" ->
  saveEdit w =
  (Return tt,
   mkWorld
     (apply_update (SetEditingSceneId None)
        (apply_update (SetData (EditAction sceneId (editBuffer (app w)))) (app w)))
     (trace w ++ [EvSet (SetData (EditAction sceneId (editBuffer (app w))));
                  EvSet (SetEditingSceneId None)])%list
     (background w)).
Proof.
  intros D E NE. unfold saveEdit, bind, captured. rewrite D, E.
  destruct sceneId as [|c i]; [contradiction NE; reflexivity|].
  cbn [truthy negb]. rewrite !set_run. cbn [fst snd app trace background].
  rewrite <- app_assoc. reflexivity.
Qed.

Lemma edit_session_run scene text w d :
  data (app w) = Some d ->
  Scene.id scene <> "" ->
  edit_session scene text w =
  (Return tt,
   mkWorld
     (apply_update (SetEditingSceneId None)
        (apply_update (SetData (EditAction (Scene.id scene) text))
           (apply_update (SetEditBuffer text)
              (apply_update (SetEditBuffer (Scene.action scene))
                 (apply_update (SetEditingSceneId (Some (Scene.id scene))) (app w))))))
     (trace w ++
      [EvSet (SetEditingSceneId (Some (Scene.id scene)));
       EvSet (SetEditBuffer (Scene.action scene));
       EvSet (SetEditBuffer text);
       EvSet (SetData (EditAction (Scene.id scene) text));
       EvSet (SetEditingSceneId None)])%list
     (background w)).
Proof.
  intros D NE. unfold edit_session, startEditing, typeEdit.
  unfold bind at 1. unfold bind at 1. rewrite set_run. cbn [fst snd].
  rewrite set_run. cbn [fst snd app trace background].
  unfold bind at 1. rewrite set_run. cbn [fst snd app trace background].
  rewrite (saveEdit_run _ d (Scene.id scene)); [| exact D | reflexivity | exact NE].
  cbn [app trace background].
  rewrite <- !app_assoc. reflexivity.
Qed.

Lemma edit_scenes_twice i ta tb ss :
  edit_scenes i tb (edit_scenes i ta ss) = edit_scenes i tb ss.
Proof.
  unfold edit_scenes. rewrite map_map. apply map_ext. intros s.
  destruct (String.eqb (Scene.id s) i) eqn:E.
  - destruct s; cbn in *. rewrite E. reflexivity.
  - rewrite E. reflexivity.
Qed.

Lemma edit_scenes_swap i j ta tb ss :
  i <> j ->
  edit_scenes j tb (edit_scenes i ta ss) = edit_scenes i ta (edit_scenes j tb ss).
Proof.
  intros NE. unfold edit_scenes. rewrite !map_map. apply map_ext. intros s.
  destruct (String.eqb_spec (Scene.id s) i) as [I|I];
    destruct (String.eqb_spec (Scene.id s) j) as [J|J].
  - congruence.
  - destruct s; cbn in *. subst i.
    destruct (String.eqb_spec id j); [contradiction|]. rewrite ?String.eqb_refl. reflexivity.
  - destruct s; cbn in *. subst j.
    destruct (String.eqb_spec id i); [contradiction|]. rewrite ?String.eqb_refl. reflexivity.
  - destruct (String.eqb_spec (Scene.id s) i); [contradiction|].
    destruct (String.eqb_spec (Scene.id s) j); [contradiction|]. reflexivity.
Qed.

Lemma edit_pages_twice i ta tb ps :
  map (fun p => Page.with_scenes (edit_scenes i tb (Page.scenes p)) p)
    (map (fun p => Page.with_scenes (edit_scenes i ta (Page.scenes p)) p) ps)
  = map (fun p => Page.with_scenes (edit_scenes i tb (Page.scenes p)) p) ps.
Proof.
  rewrite map_map. apply map_ext. intros p. destruct p; cbn [Page.with_scenes Page.scenes].
  rewrite edit_scenes_twice. reflexivity.
Qed.

Lemma edit_pages_swap i j ta tb ps :
  i <> j ->
  map (fun p => Page.with_scenes (edit_scenes j tb (Page.scenes p)) p)
    (map (fun p => Page.with_scenes (edit_scenes i ta (Page.scenes p)) p) ps)
  = map (fun p => Page.with_scenes (edit_scenes i ta (Page.scenes p)) p)
      (map (fun p => Page.with_scenes (edit_scenes j tb (Page.scenes p)) p) ps).
Proof.
  intros NE. rewrite !map_map. apply map_ext. intros p. destruct p; cbn [Page.with_scenes Page.scenes].
  rewrite (edit_scenes_swap i j ta tb _ NE). reflexivity.
Qed.

(** X8.  Edits made one after the other from the controls of two panels:
    when the panels have the same identifier the storyboard is the one the
    second edit alone gives; when their identifiers differ the storyboard
    does not depend on the order of the two edits. *)
Theorem edits_compose :
  forall w d a b ta tb,
    data (app w) = Some d ->
    Scene.id a <> "" ->
    Scene.id b <> "" ->
    (Scene.id a = Scene.id b ->
     data (app (snd ((edit_session a ta ;; edit_session b tb) w)))
     = data (app (snd (edit_session b tb w)))) /\
    (Scene.id a <> Scene.id b ->
     data (app (snd ((edit_session a ta ;; edit_session b tb) w)))
     = data (app (snd ((edit_session b tb ;; edit_session a ta) w)))).
Proof.
  intros w d a b ta tb D A B.
  assert (Da : exists da, data (app (snd (edit_session a ta w))) = Some da /\
     da = StoryboardData.with_pages
            (map (fun p => Page.with_scenes (edit_scenes (Scene.id a) ta (Page.scenes p)) p)
               (StoryboardData.pages d)) d).
  { rewrite (edit_session_run a ta w d D A). cbn. rewrite D. eexists. split; reflexivity. }
  assert (Db : exists db, data (app (snd (edit_session b tb w))) = Some db /\
     db = StoryboardData.with_pages
            (map (fun p => Page.with_scenes (edit_scenes (Scene.id b) tb (Page.scenes p)) p)
               (StoryboardData.pages d)) d).
  { rewrite (edit_session_run b tb w d D B). cbn. rewrite D. eexists. split; reflexivity. }
  destruct Da as (da & Da & Ea). destruct Db as (db & Db & Eb).
  assert (Ra : fst (edit_session a ta w) = Return tt)
    by (rewrite (edit_session_run a ta w d D A); reflexivity).
  assert (Rb : fst (edit_session b tb w) = Return tt)
    by (rewrite (edit_session_run b tb w d D B); reflexivity).
  assert (AB : data (app (snd ((edit_session a ta ;; edit_session b tb) w)))
               = Some (StoryboardData.with_pages
                   (map (fun p => Page.with_scenes
                                    (edit_scenes (Scene.id b) tb (Page.scenes p)) p)
                      (StoryboardData.pages da)) da)).
  { unfold bind at 1. destruct (edit_session a ta w) as [c wa]. cbn in Ra, Da. subst c.
    rewrite (edit_session_run b tb wa da Da B). cbn. rewrite Da. reflexivity. }
  assert (BA : data (app (snd ((edit_session b tb ;; edit_session a ta) w)))
               = Some (StoryboardData.with_pages
                   (map (fun p => Page.with_scenes
                                    (edit_scenes (Scene.id a) ta (Page.scenes p)) p)
                      (StoryboardData.pages db)) db)).
  { unfold bind at 1. destruct (edit_session b tb w) as [c wb]. cbn in Rb, Db. subst c.
    rewrite (edit_session_run a ta wb db Db A). cbn. rewrite Db. reflexivity. }
  rewrite AB, BA, Db. subst da db. destruct d as [title chars pages]. cbn.
  split.
  - intros E. rewrite E. rewrite edit_pages_twice. reflexivity.
  - intros NE. rewrite (edit_pages_swap _ _ ta tb pages NE). reflexivity.
Qed.

Lemma edits_compose_witness :
  data (app (snd ((edit_session (sample_scene "s1" 1 "Dawn") "The lamp goes out" ;;
                   edit_session (sample_scene "s1" 1 "Dusk") "The lamp is lit")
                    (start_world (showing shared_scene_storyboard)))))
  = data (app (snd (edit_session (sample_scene "s1" 1 "Dusk") "The lamp is lit"
                      (start_world (showing shared_scene_storyboard))))).
Proof.
  apply (proj1 (edits_compose (start_world (showing shared_scene_storyboard))
                  shared_scene_storyboard
                  (sample_scene "s1" 1 "Dawn") (sample_scene "s1" 1 "Dusk")
                  "The lamp goes out" "The lamp is lit" eq_refl
                  ltac:(discriminate) ltac:(discriminate))).
  reflexivity.
Defined.

Lemma edit_scenes_same scene ss :
  (forall s, In s ss -> Scene.id s = Scene.id scene ->
             Scene.action s = Scene.action scene) ->
  edit_scenes (Scene.id scene) (Scene.action scene) ss = ss.
Proof.
  intros H. unfold edit_scenes. rewrite <- (map_id ss) at 2. apply map_ext_in.
  intros s I. destruct (String.eqb_spec (Scene.id s) (Scene.id scene)) as [E|_];
    [|reflexivity].
  rewrite <- (H s I E). destruct s; reflexivity.
Qed.

(** X9.  "Commit" right after the pencil, nothing typed: when the panels
    that share the identifier of the panel under edit have its action (as
    they do when identifiers are unique), the storyboard is the one
    before, nothing is under edit and no request is issued. *)
Theorem commit_without_typing :
  forall w d scene,
    data (app w) = Some d ->
    Scene.id scene <> "" ->
    (forall p s, In p (StoryboardData.pages d) -> In s (Page.scenes p) ->
                 Scene.id s = Scene.id scene -> Scene.action s = Scene.action scene) ->
    fst ((startEditing scene ;; saveEdit) w) = Return tt /\
    data (app (snd ((startEditing scene ;; saveEdit) w))) = Some d /\
    editingSceneId (app (snd ((startEditing scene ;; saveEdit) w))) = None /\
    requests_issued (trace (snd ((startEditing scene ;; saveEdit) w)))
      = requests_issued (trace w).
Proof.
  intros w d scene D NE Same.
  assert (R : (startEditing scene ;; saveEdit) w =
    (Return tt,
     mkWorld
       (apply_update (SetEditingSceneId None)
          (apply_update (SetData (EditAction (Scene.id scene) (Scene.action scene)))
             (apply_update (SetEditBuffer (Scene.action scene))
                (apply_update (SetEditingSceneId (Some (Scene.id scene))) (app w)))))
       (trace w ++
        [EvSet (SetEditingSceneId (Some (Scene.id scene)));
         EvSet (SetEditBuffer (Scene.action scene));
         EvSet (SetData (EditAction (Scene.id scene) (Scene.action scene)));
         EvSet (SetEditingSceneId None)])%list
       (background w))).
  { unfold startEditing. unfold bind at 1. unfold bind at 1. rewrite set_run.
    cbn [fst snd]. rewrite set_run. cbn [fst snd app trace background].
    rewrite (saveEdit_run _ d (Scene.id scene)); [| exact D | reflexivity | exact NE].
    cbn [app trace background]. rewrite <- !app_assoc. reflexivity. }
  rewrite R. cbn [fst snd app trace].
  split; [reflexivity|]. split; [|split; [reflexivity|]].
  - assert (P : map (fun p => Page.with_scenes
                       (edit_scenes (Scene.id scene) (Scene.action scene) (Page.scenes p)) p)
                  (StoryboardData.pages d) = StoryboardData.pages d).
    { rewrite <- (map_id (StoryboardData.pages d)) at 2. apply map_ext_in.
      intros p P. rewrite (edit_scenes_same scene (Page.scenes p)).
      - destruct p; reflexivity.
      - intros s S. apply (Same p s P S). }
    cbn [apply_update data]. cbn [apply_data]. rewrite D, P, with_pages_same.
    reflexivity.
  - rewrite !requests_issued_app. cbn. lia.
Qed.

Lemma commit_without_typing_witness :
  data (app (snd ((startEditing (sample_scene "s2" 2 "Noon") ;; saveEdit)
                    (start_world (showing shared_scene_storyboard)))))
  = Some shared_scene_storyboard.
Proof.
  refine (proj1 (proj2 (commit_without_typing
            (start_world (showing shared_scene_storyboard)) shared_scene_storyboard
            (sample_scene "s2" 2 "Noon") eq_refl _ _))).
  - discriminate.
  - intros p s [<-|[<-|[]]] [<-|[<-|[]]]; cbn; intros H; try discriminate H; reflexivity.
Defined.

(** ** What the loop leaves alone *)

Lemma same_content_pages_refl ps : Forall2 same_content ps ps.
Proof. induction ps; constructor; auto. repeat split. Qed.

Lemma same_content_pages_trans ps qs rs :
  Forall2 same_content ps qs -> Forall2 same_content qs rs -> Forall2 same_content ps rs.
Proof.
  intros H. revert rs. induction H as [|p q ps qs (A & B & C & D) _ IH]; intros rs R;
    inversion R as [|? r ? rs' (A' & B' & C' & D') R']; subst; constructor.
  - repeat split; congruence.
  - apply IH. exact R'.
Qed.

Lemma only_frames_differ_refl st : only_frames_differ st st.
Proof.
  split; [repeat split|]. destruct (data st) as [dc|]; [|reflexivity].
  exists dc. repeat split. apply same_content_pages_refl.
Qed.

Lemma only_frames_differ_trans st1 st2 st3 :
  only_frames_differ st1 st2 -> only_frames_differ st2 st3 -> only_frames_differ st1 st3.
Proof.
  intros [S12 D12] [S23 D23]. split.
  - unfold same_but_data in *. intuition congruence.
  - destruct (data st1) as [d1|].
    + destruct D12 as (d2 & E2 & T2 & C2 & P2). rewrite E2 in D23.
      destruct D23 as (d3 & E3 & T3 & C3 & P3). exists d3.
      repeat split; try congruence. eapply same_content_pages_trans; eassumption.
    + rewrite D12 in D23. exact D23.
Qed.

Lemma map_page_same_content pageId f ps :
  (forall p, same_content p (f p)) -> Forall2 same_content ps (map_page pageId f ps).
Proof.
  intros H. unfold map_page. apply Forall2_map_same. intros p.
  destruct (String.eqb (Page.id p) pageId); [apply H | repeat split].
Qed.

Lemma page_update_frames u st :
  (exists pageId, u = MarkGenerating pageId \/ u = ClearGenerating pageId \/
                  exists imageUrl, u = AttachImage pageId imageUrl) ->
  only_frames_differ st (apply_update (SetData u) st).
Proof.
  intros (pageId & [->|[->|(imageUrl & ->)]]); (split; [repeat split|]);
    cbn [apply_update data apply_data]; (destruct (data st) as [dc|]; [|reflexivity]);
    (eexists; split; [reflexivity|]);
    cbn [StoryboardData.with_pages StoryboardData.title StoryboardData.characters
         StoryboardData.pages];
    (split; [reflexivity|]); (split; [reflexivity|]);
    apply map_page_same_content; intros p; repeat split.
Qed.

Lemma replay_loop_frames service d ps : forall k st,
  only_frames_differ st (replay (loop_events service k d ps) st).
Proof.
  induction ps as [|p ps IH]; intros k st; cbn [loop_events].
  - apply only_frames_differ_refl.
  - rewrite !replay_app. cbn [replay].
    eapply only_frames_differ_trans; [|apply IH].
    eapply only_frames_differ_trans.
    + apply (page_update_frames (MarkGenerating (Page.id p))). eexists. left. reflexivity.
    + destruct (image_outcome _ _ _ _) as [url|e|]; cbn [settle_events replay].
      * apply page_update_frames. eexists. right. right. eexists. reflexivity.
      * apply page_update_frames. eexists. right. left. reflexivity.
      * apply only_frames_differ_refl.
Qed.

Lemma requests_issued_loop_events service d ps : forall k,
  requests_issued (loop_events service k d ps) = length ps.
Proof.
  induction ps as [|p ps IH]; intros k; cbn [loop_events]; [reflexivity|].
  rewrite !requests_issued_app, IH.
  destruct (image_outcome _ _ _ _); simpl; lia.
Qed.

Lemma render_pages_app service d ps1 ps2 : forall w,
  render_pages service (ps1 ++ ps2) d w
  = (render_pages service ps1 d ;; render_pages service ps2 d) w.
Proof.
  induction ps1 as [|p ps1 IH]; intros w; [reflexivity|].
  cbn [List.app render_pages]. unfold bind, timeout.
  destruct (handleGeneratePage service (Page.id p) (Some d) (log [EvTimeout 100] w))
    as [[[]|e|] w2]; [|reflexivity|reflexivity].
  rewrite IH. reflexivity.
Qed.

Lemma pages_of_the_snapshot (d : StoryboardData.t) ps1 ps2 :
  StoryboardData.pages d = (ps1 ++ ps2)%list ->
  (forall p, In p ps1 -> In (Page.id p) (map Page.id (StoryboardData.pages d))) /\
  (forall p, In p ps2 -> In (Page.id p) (map Page.id (StoryboardData.pages d))).
Proof.
  intros E. rewrite E. split; intros p P; apply in_map, in_or_app; auto.
Qed.

(** X10.  The loop, whatever storyboard the state holds when it runs, or
    none: it ends normally; every state cell but the data is as before;
    in the data, title, roster and, page by page, identifier, number,
    scenes and layout description are as before, and a state without
    storyboard stays without.  What the loop adds to the trace, requests
    included, is read off the storyboard it was called with and the
    number of requests issued before, not off the state.  The loop over
    the pages is the loop over the first of them followed by the loop
    over the rest, wherever the pages are split. *)
Theorem loop_changes_only_the_frames :
  forall service d w,
    fst (renderAllPagesSequentially service d w) = Return tt /\
    only_frames_differ (app w) (app (snd (renderAllPagesSequentially service d w))) /\
    trace (snd (renderAllPagesSequentially service d w))
      = (trace w ++ loop_events service (requests_issued (trace w)) d
                      (StoryboardData.pages d))%list /\
    forall ps1 ps2,
      StoryboardData.pages d = (ps1 ++ ps2)%list ->
      renderAllPagesSequentially service d w
      = (render_pages service ps1 d ;; render_pages service ps2 d) w.
Proof.
  intros service d w. split; [|split; [|split]].
  - unfold renderAllPagesSequentially.
    rewrite (render_pages_events service d (StoryboardData.pages d)
               (fun p P => in_map Page.id _ p P) w). reflexivity.
  - unfold renderAllPagesSequentially.
    rewrite (render_pages_events service d (StoryboardData.pages d)
               (fun p P => in_map Page.id _ p P) w).
    cbn [snd app]. apply replay_loop_frames.
  - unfold renderAllPagesSequentially.
    rewrite (render_pages_events service d (StoryboardData.pages d)
               (fun p P => in_map Page.id _ p P) w). reflexivity.
  - intros ps1 ps2 E. unfold renderAllPagesSequentially. rewrite E.
    apply render_pages_app.
Qed.

Lemma loop_changes_only_the_frames_witness :
  renderAllPagesSequentially second_request_fails sample_storyboard
    (start_world (showing sample_storyboard))
  = (render_pages second_request_fails [sample_page "p1" 1] sample_storyboard ;;
     render_pages second_request_fails [sample_page "p2" 2; sample_page "p3" 3]
       sample_storyboard)
      (start_world (showing sample_storyboard)).
Proof.
  exact (proj2 (proj2 (proj2 (loop_changes_only_the_frames second_request_fails
                                sample_storyboard
                                (start_world (showing sample_storyboard)))))
           [sample_page "p1" 1] [sample_page "p2" 2; sample_page "p3" 3] eq_refl).
Defined.

(** X11.  "Initiate New Production" clicked during the pause before a
    page of a running loop does not stop it: the pages that remain are
    still requested, one request each, while the state keeps no
    storyboard and the input section is on screen. *)
Theorem new_production_does_not_stop_the_loop :
  forall service d ps1 ps2 w,
    StoryboardData.pages d = (ps1 ++ ps2)%list ->
    fst ((render_pages service ps1 d ;; handleNewProduction ;;
          render_pages service ps2 d) w) = Return tt /\
    requests_issued
      (trace (snd ((render_pages service ps1 d ;; handleNewProduction ;;
                    render_pages service ps2 d) w)))
      = requests_issued (trace w) + length (StoryboardData.pages d) /\
    data (app (snd ((render_pages service ps1 d ;; handleNewProduction ;;
                     render_pages service ps2 d) w))) = None /\
    screen (app (snd ((render_pages service ps1 d ;; handleNewProduction ;;
                       render_pages service ps2 d) w))) = InputScreen.
Proof.
  intros service d ps1 ps2 w E.
  destruct (pages_of_the_snapshot d ps1 ps2 E) as [S1 S2].
  set (w1 := snd (render_pages service ps1 d w)).
  set (w2 := mkWorld
               (apply_update (SetDevelopedStory None)
                  (apply_update (SetData (Replace None))
                     (apply_update (SetStep AppStep.input) (app w1))))
               (trace w1 ++ [EvSet (SetStep AppStep.input); EvSet (SetData (Replace None));
                             EvSet (SetDevelopedStory None)])%list
               (background w1)).
  assert (R : (render_pages service ps1 d ;; handleNewProduction ;;
               render_pages service ps2 d) w = render_pages service ps2 d w2).
  { unfold bind at 1. unfold w2, w1.
    rewrite (render_pages_events service d ps1 S1 w). cbn [fst snd].
    unfold handleNewProduction. unfold bind at 1. unfold bind at 1.
    rewrite set_run. cbn [fst snd]. unfold bind at 1. rewrite set_run. cbn [fst snd].
    rewrite set_run. cbn [fst snd app trace background].
    rewrite <- !app_assoc. reflexivity. }
  rewrite R, (render_pages_events service d ps2 S2 w2). cbn [fst snd app trace].
  destruct (replay_loop_frames service d ps2 (requests_issued (trace w2)) (app w2))
    as [(St & _) Da].
  split; [reflexivity|]. split; [|split].
  - rewrite requests_issued_app, requests_issued_loop_events.
    unfold w2. cbn [trace]. rewrite requests_issued_app. cbn [requests_issued].
    unfold w1. rewrite (render_pages_events service d ps1 S1 w). cbn [snd trace].
    rewrite requests_issued_app, requests_issued_loop_events, E, length_app. lia.
  - exact Da.
  - unfold screen. rewrite St. reflexivity.
Qed.

Lemma new_production_does_not_stop_the_loop_witness :
  requests_issued
    (trace (snd ((render_pages second_request_fails [sample_page "p1" 1] sample_storyboard ;;
                  handleNewProduction ;;
                  render_pages second_request_fails
                    [sample_page "p2" 2; sample_page "p3" 3] sample_storyboard)
                   (start_world (showing sample_storyboard))))) = 0 + 3.
Proof.
  exact (proj1 (proj2 (new_production_does_not_stop_the_loop second_request_fails
                         sample_storyboard [sample_page "p1" 1]
                         [sample_page "p2" 2; sample_page "p3" 3]
                         (start_world (showing sample_storyboard)) eq_refl))).
Defined.

Lemma same_content_scenes ps qs :
  Forall2 same_content ps qs -> map Page.scenes qs = map Page.scenes ps.
Proof.
  induction 1 as [|p q ps qs (_ & _ & S & _) _ IH]; simpl; [reflexivity|].
  rewrite S, IH. reflexivity.
Qed.

(** X12.  An edit committed during the pause before a page of a running
    loop is kept but not illustrated: when the loop is over the scenes in
    the state are the edited ones, while the requests of the pages that
    remained are those the loop would have sent without the edit, built
    from the storyboard the loop was called with. *)
Theorem edit_between_pages_is_not_sent :
  forall service d ps1 ps2 scene text w d0,
    data (app w) = Some d0 ->
    Scene.id scene <> "" ->
    StoryboardData.pages d = (ps1 ++ ps2)%list ->
    fst ((render_pages service ps1 d ;; edit_session scene text ;;
          render_pages service ps2 d) w) = Return tt /\
    trace (snd ((render_pages service ps1 d ;; edit_session scene text ;;
                 render_pages service ps2 d) w))
      = (trace w
         ++ loop_events service (requests_issued (trace w)) d ps1
         ++ [EvSet (SetEditingSceneId (Some (Scene.id scene)));
             EvSet (SetEditBuffer (Scene.action scene));
             EvSet (SetEditBuffer text);
             EvSet (SetData (EditAction (Scene.id scene) text));
             EvSet (SetEditingSceneId None)]
         ++ loop_events service (requests_issued (trace w) + length ps1) d ps2)%list /\
    exists d',
      data (app (snd ((render_pages service ps1 d ;; edit_session scene text ;;
                       render_pages service ps2 d) w))) = Some d' /\
      map Page.scenes (StoryboardData.pages d')
        = map (fun p => edit_scenes (Scene.id scene) text (Page.scenes p))
            (StoryboardData.pages d0).
Proof.
  intros service d ps1 ps2 scene text w d0 D NE E.
  destruct (pages_of_the_snapshot d ps1 ps2 E) as [S1 S2].
  set (k := requests_issued (trace w)).
  set (w1 := mkWorld (replay (loop_events service k d ps1) (app w))
               (trace w ++ loop_events service k d ps1)%list (background w)).
  destruct (replay_loop_frames service d ps1 k (app w)) as [_ F1]. rewrite D in F1.
  destruct F1 as (d1 & D1 & _ & _ & P1).
  set (w2 := snd (edit_session scene text w1)).
  assert (R2 : edit_session scene text w1 = (Return tt, w2)).
  { unfold w2. rewrite (edit_session_run scene text w1 d1 D1 NE). reflexivity. }
  assert (R : (render_pages service ps1 d ;; edit_session scene text ;;
               render_pages service ps2 d) w = render_pages service ps2 d w2).
  { unfold bind at 1. rewrite (render_pages_events service d ps1 S1 w). cbn [fst snd].
    fold k. fold w1. unfold bind at 1. rewrite R2. reflexivity. }
  rewrite R, (render_pages_events service d ps2 S2 w2). cbn [fst snd app trace].
  assert (T2 : trace w2 = (trace w ++ loop_events service k d ps1
       ++ [EvSet (SetEditingSceneId (Some (Scene.id scene)));
           EvSet (SetEditBuffer (Scene.action scene));
           EvSet (SetEditBuffer text);
           EvSet (SetData (EditAction (Scene.id scene) text));
           EvSet (SetEditingSceneId None)])%list).
  { unfold w2. rewrite (edit_session_run scene text w1 d1 D1 NE). cbn [snd trace].
    unfold w1. cbn [trace]. rewrite <- app_assoc. reflexivity. }
  assert (D2 : data (app w2) = Some (StoryboardData.with_pages
       (map (fun p => Page.with_scenes (edit_scenes (Scene.id scene) text (Page.scenes p)) p)
          (StoryboardData.pages d1)) d1)).
  { unfold w2. rewrite (edit_session_run scene text w1 d1 D1 NE).
    cbn [snd app apply_update data apply_data].
    change (data (app w1)) with (data (replay (loop_events service k d ps1) (app w))).
    rewrite D1. reflexivity. }
  assert (K2 : requests_issued (trace w2) = k + length ps1).
  { rewrite T2, !requests_issued_app, requests_issued_loop_events.
    cbn [requests_issued]. fold k. lia. }
  split; [reflexivity|]. split.
  - rewrite K2, T2, <- !app_assoc. reflexivity.
  - destruct (replay_loop_frames service d ps2 (requests_issued (trace w2)) (app w2))
      as [_ F2]. rewrite D2 in F2. destruct F2 as (d' & D' & _ & _ & P2).
    exists d'. split; [exact D'|].
    rewrite (same_content_scenes _ _ P2).
    cbn [StoryboardData.with_pages StoryboardData.pages]. rewrite map_map.
    cbn [Page.with_scenes Page.scenes].
    rewrite <- (map_map Page.scenes (edit_scenes (Scene.id scene) text)).
    rewrite (same_content_scenes _ _ P1), map_map. reflexivity.
Qed.

Lemma edit_between_pages_is_not_sent_witness :
  exists d',
    data (app (snd ((render_pages (answering (image_response "AAAA"))
                       [sample_page "p1" 1] sample_storyboard ;;
                     edit_session (sample_scene "p2-s1" 1 "The keeper climbs the stairs")
                       "The keeper slips" ;;
                     render_pages (answering (image_response "AAAA"))
                       [sample_page "p2" 2; sample_page "p3" 3] sample_storyboard)
                      (start_world (showing sample_storyboard))))) = Some d' /\
    map Page.scenes (StoryboardData.pages d')
      = map (fun p => edit_scenes "p2-s1" "The keeper slips" (Page.scenes p))
          (StoryboardData.pages sample_storyboard).
Proof.
  exact (proj2 (proj2 (edit_between_pages_is_not_sent (answering (image_response "AAAA"))
           sample_storyboard [sample_page "p1" 1] [sample_page "p2" 2; sample_page "p3" 3]
           (sample_scene "p2-s1" 1 "The keeper climbs the stairs") "The keeper slips"
           (start_world (showing sample_storyboard)) sample_storyboard
           eq_refl ltac:(discriminate) eq_refl))).
Defined.

(** ** What a page shows *)

Lemma image_outcome_truthy service k page allCharacters imageUrl :
  image_outcome service k page allCharacters = Return imageUrl ->
  truthy imageUrl = true.
Proof.
  unfold image_outcome. destruct (service k _) as [e|r]; [discriminate|].
  destruct (GenAI.candidates r) as [|c rest]; [discriminate|].
  destruct (truthy (scan_parts _ _)) eqn:T; [|discriminate].
  intros H. inversion H; subst imageUrl. exact T.
Qed.

(** X13.  The frame of a page around a request made from its buttons.
    While the request is in flight, a page with the requested identifier
    that has an image keeps showing it, and shows the spinner otherwise.
    Once the call has settled it shows the returned image, or, the call
    having failed, its old image if it had one and the "Inscribe Page"
    button if not, never the spinner.  The frames of the other pages do
    not change. *)
Theorem frame_of_a_requested_page :
  forall service pageId d w target,
    data (app w) = Some d ->
    find (fun p => String.eqb (Page.id p) pageId) (StoryboardData.pages d) = Some target ->
    (exists rest dm,
       trace (snd (handleGeneratePage service pageId None w))
         = (trace w ++ EvSet (SetData (MarkGenerating pageId)) :: rest)%list /\
       data (apply_update (SetData (MarkGenerating pageId)) (app w)) = Some dm /\
       Forall2 (fun q q' =>
                  page_frame q' =
                    if String.eqb (Page.id q) pageId
                    then match page_frame q with
                         | ShowsImage old => ShowsImage old
                         | _ => ShowsSpinner
                         end
                    else page_frame q)
         (StoryboardData.pages d) (StoryboardData.pages dm)) /\
    (exists d',
       data (app (snd (handleGeneratePage service pageId None w))) = Some d' /\
       Forall2 (fun q q' =>
                  page_frame q' =
                    if String.eqb (Page.id q) pageId
                    then match image_outcome service (requests_issued (trace w)) target
                                 (StoryboardData.characters d) with
                         | Return imageUrl => ShowsImage imageUrl
                         | _ => match page_frame q with
                                | ShowsImage old => ShowsImage old
                                | _ => ShowsInscribeButton
                                end
                         end
                    else page_frame q)
         (StoryboardData.pages d) (StoryboardData.pages d')).
Proof.
  intros service pageId d w target D F.
  rewrite (handleGeneratePage_of_state service pageId d w D).
  rewrite (handleGeneratePage_run service pageId d w target F).
  cbn [fst snd trace app]. split.
  - eexists. eexists. split; [|split].
    + reflexivity.
    + cbn [apply_update data apply_data]. rewrite D. reflexivity.
    + cbn [StoryboardData.with_pages StoryboardData.pages]. unfold map_page.
      apply Forall2_map_same. intros q.
      destruct (String.eqb (Page.id q) pageId); [|reflexivity].
      unfold page_frame. cbn [Page.with_isGenerating Page.imageUrl Page.isGenerating].
      destruct (Page.imageUrl q) as [url|]; [destruct (truthy url)|];
        destruct (Page.isGenerating q) as [[|]|]; reflexivity.
  - cbn [apply_update data]. rewrite D, settle_marked_pages.
    eexists. split; [reflexivity|].
    cbn [StoryboardData.with_pages StoryboardData.pages]. unfold map_page.
    apply Forall2_map_same. intros q.
    destruct (String.eqb (Page.id q) pageId); [|reflexivity].
    destruct (image_outcome service (requests_issued (trace w)) target
                (StoryboardData.characters d)) as [url|e|] eqn:O.
    + unfold settle_page, page_frame.
      cbn [Page.with_image Page.imageUrl].
      rewrite (image_outcome_truthy _ _ _ _ _ O). reflexivity.
    + unfold settle_page, page_frame.
      cbn [Page.with_isGenerating Page.imageUrl Page.isGenerating].
      destruct (Page.imageUrl q) as [url|]; [destruct (truthy url)|];
        destruct (Page.isGenerating q) as [[|]|]; reflexivity.
    + exfalso. exact (image_outcome_is_modelled _ _ _ _ O).
Qed.

Lemma frame_of_a_requested_page_witness :
  exists d',
    data (app (snd (handleGeneratePage (rejecting (Error "quota exceeded")) "p1" None
                      (start_world (showing illustrated_storyboard))))) = Some d' /\
    Forall2 (fun q q' =>
               page_frame q' =
                 if String.eqb (Page.id q) "p1"
                 then match page_frame q with
                      | ShowsImage old => ShowsImage old
                      | _ => ShowsInscribeButton
                      end
                 else page_frame q)
      (StoryboardData.pages illustrated_storyboard) (StoryboardData.pages d').
Proof.
  exact (proj2 (frame_of_a_requested_page (rejecting (Error "quota exceeded")) "p1"
                  illustrated_storyboard (start_world (showing illustrated_storyboard))
                  (Page.mk "p1" 1 [sample_scene "s1" 1 "Dawn"]
                     (Some "data:image/png;base64,AAAA") (Some false) "single panel")
                  eq_refl eq_refl)).
Defined.

(** ** A quick start, then the loop *)

(** X14.  A quick start with a seed that is not blank and an answer that
    decodes to a storyboard, followed by the loop it left unawaited: all
    ends normally after one request for the storyboard and one per page.
    The step is the storyboard, loading is over, no error is stored; the
    data is the storyboard of the answer, in which only images and
    in-progress flags may differ, and no page is left in progress. *)
Theorem quick_start_illustrates_every_page :
  forall service w j d,
    truthy (trim (input (app w))) = true ->
    mode (app w) = Mode.quick ->
    background w = [] ->
    text_outcome service (requests_issued (trace w))
      (generateStoryboardFromText_request (input (app w)) (numPages (app w))
         (numPanelsPerPage (app w))) = Return j ->
    as_StoryboardData j = Some d ->
    fst (click service (handleStartProduction service) w) = Return tt /\
    requests_issued (trace (snd (click service (handleStartProduction service) w)))
      = S (requests_issued (trace w)) + length (StoryboardData.pages d) /\
    step (app (snd (click service (handleStartProduction service) w)))
      = AppStep.storyboard /\
    loading (app (snd (click service (handleStartProduction service) w))) = false /\
    error (app (snd (click service (handleStartProduction service) w))) = None /\
    background (snd (click service (handleStartProduction service) w)) = [] /\
    exists d',
      data (app (snd (click service (handleStartProduction service) w))) = Some d' /\
      StoryboardData.title d' = StoryboardData.title d /\
      StoryboardData.characters d' = StoryboardData.characters d /\
      Forall2 same_content (StoryboardData.pages d) (StoryboardData.pages d') /\
      Forall (fun p' => Page.isGenerating p' = Some false) (StoryboardData.pages d').
Proof.
  intros service w j d T Mo B O D.
  set (w1 := mkWorld
     (apply_update (SetLoading false)
        (apply_update (SetStep AppStep.storyboard)
           (apply_update (SetData (Replace (Some d)))
              (apply_update (SetError None) (apply_update (SetLoading true) (app w))))))
     (trace w ++
      [EvSet (SetLoading true); EvSet (SetError None);
       EvRequest (generateStoryboardFromText_request (input (app w)) (numPages (app w))
                    (numPanelsPerPage (app w)));
       EvSettled (service (requests_issued (trace w))
                    (generateStoryboardFromText_request (input (app w)) (numPages (app w))
                       (numPanelsPerPage (app w))));
       EvSet (SetData (Replace (Some d))); EvSet (SetStep AppStep.storyboard);
       EvSet (SetLoading false)])%list
     []).
  assert (Sub : forall p, In p (StoryboardData.pages d) ->
                          In (Page.id p) (map Page.id (StoryboardData.pages d)))
    by (intros p P; apply in_map; exact P).
  assert (C : click service (handleStartProduction service) w
              = render_pages service (StoryboardData.pages d) d w1).
  { unfold click. rewrite (handleStartProduction_quick service w j d T Mo O D).
    cbn [background app trace]. rewrite B. cbn [List.app render_each].
    unfold bind, renderAllPagesSequentially. fold w1.
    rewrite (render_pages_events service d _ Sub w1). reflexivity. }
  rewrite C.
  destruct (render_pages_clears_flags service d (StoryboardData.pages d) [] w1 d Sub
              eq_refl (settled_refl _)) as (d' & R & Q & D' & F).
  destruct (settled_all _ _ _ F) as [_ G].
  { intros q I. rewrite app_nil_r. apply in_rev. rewrite rev_involutive.
    apply in_map. exact I. }
  assert (Fr : only_frames_differ (app w1)
                 (app (snd (render_pages service (StoryboardData.pages d) d w1)))).
  { rewrite (render_pages_events service d _ Sub w1). apply replay_loop_frames. }
  assert (Bg : background (snd (render_pages service (StoryboardData.pages d) d w1)) = []).
  { rewrite (render_pages_events service d _ Sub w1). reflexivity. }
  destruct Fr as [(St & _ & _ & Lo & _ & Er & _) Da].
  cbn [app w1 apply_update data apply_data] in Da.
  destruct Da as (d'' & D'' & Ti & Ch & Pa).
  rewrite D' in D''. inversion D''; subst d''.
  split; [exact R|]. split.
  { rewrite Q. unfold w1. cbn [trace]. rewrite requests_issued_app. simpl. lia. }
  split; [rewrite St; reflexivity|]. split; [rewrite Lo; reflexivity|].
  split; [rewrite Er; reflexivity|]. split; [exact Bg|].
  exists d'. repeat split; assumption.
Qed.

Lemma quick_start_illustrates_every_page_witness :
  exists d',
    data (app (snd (click (answering storyboard_and_image_response)
                      (handleStartProduction (answering storyboard_and_image_response))
                      (start_world (typed "A bottle washes up." Mode.quick))))) = Some d' /\
    Forall (fun p' => Page.isGenerating p' = Some false) (StoryboardData.pages d').
Proof.
  destruct (quick_start_illustrates_every_page (answering storyboard_and_image_response)
              (start_world (typed "A bottle washes up." Mode.quick))
              one_panel_value one_panel_storyboard eq_refl eq_refl eq_refl
              ltac:(vm_compute; reflexivity) ltac:(vm_compute; reflexivity))
    as (_ & _ & _ & _ & _ & _ & d' & D & _ & _ & _ & G).
  exists d'. split; [exact D | exact G].
Defined.

(** ** More of the illustrator *)



Lemma scene_prompts_of_what_is_told ss : forall ss',
  map scene_told ss = map scene_told ss' -> map scenePrompt ss = map scenePrompt ss'.
Proof.
  induction ss as [|s ss IH]; intros [|s' ss'] E; try discriminate E; [reflexivity|].
  cbn [map] in E. inversion E as [[N V A T]]. cbn [map]. rewrite (IH ss' T).
  unfold scenePrompt. rewrite N, V, A. reflexivity.
Qed.

Lemma character_lines_of_what_is_told cs : forall cs',
  map character_told cs = map character_told cs' ->
  map (fun c => Character.name c ++ ": " ++ Character.appearance c) cs
  = map (fun c => Character.name c ++ ": " ++ Character.appearance c) cs'.
Proof.
  induction cs as [|c cs IH]; intros [|c' cs'] E; try discriminate E; [reflexivity|].
  cbn [map] in E. inversion E as [[N A T]]. cbn [map]. rewrite (IH cs' T), N, A. reflexivity.
Qed.

(** X16.  The request for a page is the same for two pages whose scenes
    agree, in order, on number, visual prompt and action, and two rosters
    whose characters agree, in order, on name and appearance: identifiers,
    page number, layout description, location, time of day, dialogue and
    images never reach the illustrator. *)
Theorem request_is_built_from_what_is_told :
  forall page page' allCharacters allCharacters',
    map scene_told (Page.scenes page) = map scene_told (Page.scenes page') ->
    map character_told allCharacters = map character_told allCharacters' ->
    generatePageImage_request page allCharacters
    = generatePageImage_request page' allCharacters'.
Proof.
  intros page page' cs cs' S C.
  assert (L : length (Page.scenes page) = length (Page.scenes page')).
  { rewrite <- (length_map scene_told (Page.scenes page)), S. apply length_map. }
  unfold generatePageImage_request, fullPrompt, scenesPrompts, characterContext.
  rewrite L, (scene_prompts_of_what_is_told _ _ S),
    (character_lines_of_what_is_told _ _ C). reflexivity.
Qed.

Lemma request_is_built_from_what_is_told_witness :
  generatePageImage_request
    (Page.mk "p1" 1 [sample_scene "s1" 1 "Dawn"] None None "single panel") [keeper]
  = generatePageImage_request
      (Page.mk "p7" 7
         [Scene.mk "s9" 1 "Harbour" (Some "Night") "Dawn" (Some "Who goes there?")
            "Wide shot: Dawn" None None]
         (Some "data:image/png;base64,AAAA") (Some true) "a full-page spread")
      [Character.mk "c9" "Keeper" "Silhouette with a lantern"].
Proof.
  exact (request_is_built_from_what_is_told
           (Page.mk "p1" 1 [sample_scene "s1" 1 "Dawn"] None None "single panel")
           (Page.mk "p7" 7
              [Scene.mk "s9" 1 "Harbour" (Some "Night") "Dawn" (Some "Who goes there?")
                 "Wide shot: Dawn" None None]
              (Some "data:image/png;base64,AAAA") (Some true) "a full-page spread")
           [keeper] [Character.mk "c9" "Keeper" "Silhouette with a lantern"]
           eq_refl eq_refl).
Defined.

(** ** Going back *)

(** X17.  A text typed in the edit box and discarded is not saved by a
    later "Commit": after "Discard" nothing is under edit, so [saveEdit]
    returns at its guard although the buffer still holds the text.  The
    storyboard is the one before and no request is issued. *)
Theorem discarded_text_is_not_saved :
  forall w scene text,
    fst ((startEditing scene ;; typeEdit text ;; discardEdit ;; saveEdit) w) = Return tt /\
    data (app (snd ((startEditing scene ;; typeEdit text ;; discardEdit ;; saveEdit) w)))
      = data (app w) /\
    editingSceneId
      (app (snd ((startEditing scene ;; typeEdit text ;; discardEdit ;; saveEdit) w)))
      = None /\
    editBuffer
      (app (snd ((startEditing scene ;; typeEdit text ;; discardEdit ;; saveEdit) w)))
      = text /\
    requests_issued
      (trace (snd ((startEditing scene ;; typeEdit text ;; discardEdit ;; saveEdit) w)))
      = requests_issued (trace w).
Proof.
  intros w scene text.
  assert (R : (startEditing scene ;; typeEdit text ;; discardEdit ;; saveEdit) w =
    (Return tt,
     mkWorld
       (apply_update (SetEditingSceneId None)
          (apply_update (SetEditBuffer text)
             (apply_update (SetEditBuffer (Scene.action scene))
                (apply_update (SetEditingSceneId (Some (Scene.id scene))) (app w)))))
       (trace w ++
        [EvSet (SetEditingSceneId (Some (Scene.id scene)));
         EvSet (SetEditBuffer (Scene.action scene));
         EvSet (SetEditBuffer text);
         EvSet (SetEditingSceneId None)])%list
       (background w))).
  { unfold startEditing, typeEdit, discardEdit.
    unfold bind at 1. unfold bind at 1. rewrite set_run. cbn [fst snd].
    rewrite set_run. cbn [fst snd app trace background].
    unfold bind at 1. rewrite set_run. cbn [fst snd app trace background].
    unfold bind at 1. rewrite set_run. cbn [fst snd app trace background].
    unfold saveEdit, bind, captured. cbn [fst snd app apply_update editingSceneId].
    rewrite <- !app_assoc. cbn [List.app].
    destruct (data _); reflexivity. }
  rewrite R. cbn [fst snd app trace].
  repeat split. rewrite requests_issued_app. cbn [requests_issued]. lia.
Qed.

(** X18.  The message of a failed build is stored while the development
    step is on screen, where no message is rendered; it is
    "Restart Configuration" that brings it up, with the input section. *)
Theorem restart_reveals_the_build_error :
  forall service w story e,
    step (app w) = AppStep.development ->
    developedStory (app w) = Some story ->
    json_falsy story = false ->
    text_outcome service (requests_issued (trace w))
      (generateStoryboardFromText_request (template_member "screenplay" story)
         (numPages (app w)) (numPanelsPerPage (app w))) = Throw e ->
    shown_error (app (snd (handleBuildManga service w))) = None /\
    screen (app (snd (handleBuildManga service w))) = DevelopmentScreen story /\
    screen (app (snd ((handleBuildManga service ;; handleRestartConfiguration) w)))
      = InputScreen /\
    shown_error (app (snd ((handleBuildManga service ;; handleRestartConfiguration) w)))
      = Some (or_default (Some (message e))
                "Critical logic error in sequence generation.").
Proof.
  intros service w story e St S F O.
  unfold bind. rewrite (handleBuildManga_failure service w story e S F O).
  unfold handleRestartConfiguration. rewrite set_run.
  cbn [fst snd app]. unfold shown_error, screen.
  cbn [apply_update step error developedStory]. rewrite St, S, F.
  repeat split.
  unfold or_default. destruct (truthy (message e)) eqn:T; [rewrite T|]; reflexivity.
Qed.

Lemma restart_reveals_the_build_error_witness :
  shown_error
    (app (snd ((handleBuildManga (rejecting (Error "Network down")) ;;
                handleRestartConfiguration)
                 (start_world (developed (JObject []))))))
  = Some "Network down".
Proof.
  exact (proj2 (proj2 (proj2 (restart_reveals_the_build_error
           (rejecting (Error "Network down")) (start_world (developed (JObject [])))
           (JObject []) (Error "Network down") eq_refl eq_refl eq_refl eq_refl)))).
Defined.
